(** * Session and thread orchestration of the YouTube learning-mode AI service

    A shallow embedding of [pkg/handlers] and of the assistant service of
    [pkg/services] (Go).  The functions of the source talk to two outside
    parties: the remote provider, over HTTP, and the durable store, a Redis
    server.  Both are given here as an environment [Env] that answers every
    call as a function of the calls made before it; the process itself is a
    [World] holding the store's content, the in-process map [threadManagers]
    and the trace of every call that left the process, each with the answer
    it received.  The store keeps with a string the expiry it was written
    with.  The passing of wall-clock time is not part of the world: that a
    key lapses is a step of the store, [expire], taken between the calls of
    the service.

    Go's [(value, error)] results are [result]; a Go [error] is the string
    its [Error()] method returns.  Log lines ([log.Printf], [fmt.Printf]) and
    the mutex around the thread lookup are left out: the embedding runs one
    request at a time. *)

From Stdlib Require Import Ascii.
From stdpp Require Import gmap strings list.

(** ** Results *)

Inductive result (A : Type) : Type :=
| Ok (a : A)
| Err (e : string).

Arguments Ok {A} a.
Arguments Err {A} e.

Definition is_Ok {A} (r : result A) : bool :=
  match r with Ok _ => true | Err _ => false end.

(** ** Durations, as Go's [time.Duration]: a count of nanoseconds *)

Definition Second : Z := 1000000000.
Definition Hour : Z := 3600 * Second.

(** ** The service's data *)

Module Services.

Record ThreadManager := { ThreadID : string }.

Record InitializeRequest := {
  SystemInstructions : string;
  VideoID : string;
  Title : string;
  Channel : string;
  Transcript : string
}.

Record TextContent := { Value : string }.

Record ContentFragment := {
  Type' : string;
  Text : option TextContent
}.

Record Message := {
  ID : string;
  Role : string;
  Content : list ContentFragment
}.

(** What [RunAssistant] decodes from the answer to a started run. *)
Record RunResp := { run_ID : string; run_Status : string }.

(** ** Requests to the remote provider

    One constructor per request the source builds; [Request_method],
    [Request_url] and [Request_body] give what is put on the wire. *)

Inductive Request :=
| PostAssistants (name instructions : string)
| PostThreads
| PostMessage (threadID role content : string)
| PostRuns (threadID assistantID : string)
| GetRun (threadID runID : string)
| GetMessages (threadID : string).

Definition Request_method (r : Request) : string :=
  match r with
  | GetRun _ _ | GetMessages _ => "GET"
  | _ => "POST"
  end.

Definition Request_url (r : Request) : string :=
  match r with
  | PostAssistants _ _ => "https://api.openai.com/v1/assistants"
  | PostThreads => "https://api.openai.com/v1/threads"
  | PostMessage t _ _ => "https://api.openai.com/v1/threads/" +:+ t +:+ "/messages"
  | PostRuns t _ => "https://api.openai.com/v1/threads/" +:+ t +:+ "/runs"
  | GetRun t r => "https://api.openai.com/v1/threads/" +:+ t +:+ "/runs/" +:+ r
  | GetMessages t => "https://api.openai.com/v1/threads/" +:+ t +:+ "/messages"
  end.

Definition Request_body (r : Request) : list (string * string) :=
  match r with
  | PostAssistants name instructions =>
      [("model", "gpt-4o-mini"); ("name", name); ("instructions", instructions)]
  | PostMessage _ role content => [("role", role); ("content", content)]
  | PostRuns _ assistantID => [("assistant_id", assistantID)]
  | PostThreads | GetRun _ _ | GetMessages _ => []
  end.

(** A response as the source reads it: the status code, the bytes
    [ioutil.ReadAll] gets from the body, and the error of that read if any. *)
Record Response := {
  StatusCode : Z;
  Body : string;
  ReadErr : option string
}.

(** [client.Do]: a transport error or a response. *)
Inductive Exchange :=
| SendError (e : string)
| Reply (resp : Response).

(** ** The durable store *)

(** A key holds a string written with an expiry, or a list. *)
Inductive RedisValue :=
| RString (v : string) (expiration : Z)
| RList (l : list string).

(** Failures to reach the store.  Both are failures to set up the
    connection: the command is never sent, so the store executes nothing,
    however often the client retries.  A failure after the command was sent
    (a reply that is lost, a connection that closes in the middle) is not
    among them: the store may then have executed the command, more than once
    when the client retried, and this development says nothing of it, nor
    of a command that is answered without error on such a retry. *)
Inductive StoreFault := ConnRefused | DialTimeout.

Definition fault_text (f : StoreFault) : string :=
  match f with
  | ConnRefused => "dial tcp: connect: connection refused"
  | DialTimeout => "dial tcp: i/o timeout"
  end.

(** The text of go-redis's [redis.Nil], the answer for a key that is not set. *)
Definition redis_Nil : string := "redis: nil".

Definition WRONGTYPE : string :=
  "WRONGTYPE Operation against a key holding the wrong kind of value".

(** ** Trace, world and environment *)

Inductive Event :=
| Http (req : Request) (ans : Exchange)
| RedisGet (key : string) (ans : result string)
| RedisSet (key value : string) (expiration : Z) (ans : result unit)
| RedisRPush (key value : string) (ans : result unit)
| Sleep (d : Z).

Record World := {
  redis : gmap string RedisValue;
  threadManagers : gmap string ThreadManager;
  trace : list Event
}.

Record Env := {
  (** [http.NewRequest]: the error for a URL that does not parse. *)
  url_error : string -> option string;
  (** The provider's answer to a request, given all that happened before. *)
  send : list Event -> Request -> Exchange;
  (** [json.NewDecoder(resp.Body).Decode] into the struct the caller
      declares: its [id], its [id] and [status], its [status]. *)
  json_id : Response -> result string;
  json_run : Response -> result RunResp;
  json_status : Response -> result string;
  (** [json.Unmarshal] of the bytes of a message list. *)
  json_messages : string -> result (list Message);
  (** Whether the store cannot be reached for the next operation, given
      all that happened before. *)
  redis_fault : list Event -> option StoreFault
}.

Definition record (ev : Event) (w : World) : World :=
  {| redis := redis w; threadManagers := threadManagers w;
     trace := trace w ++ [ev] |}.

Definition set_redis (m : gmap string RedisValue) (w : World) : World :=
  {| redis := m; threadManagers := threadManagers w; trace := trace w |}.

Definition set_threadManagers (m : gmap string ThreadManager) (w : World) : World :=
  {| redis := redis w; threadManagers := m; trace := trace w |}.

(** A Go function with side effects on the world. *)
Definition Go (A : Type) : Type := World -> result A * World.

Definition ret {A} (a : A) : Go A := fun w => (Ok a, w).
Definition fail {A} (e : string) : Go A := fun w => (Err e, w).

(** [x, err := c; if err != nil { return fmt.Errorf(msg + "%v", err) }; k x] *)
Definition try {A B} (c : Go A) (msg : string) (k : A -> Go B) : Go B :=
  fun w =>
    match c w with
    | (Ok a, w1) => k a w1
    | (Err e, w1) => (Err (msg +:+ e), w1)
    end.

Notation "'let!' x ':=' c 'orfail' msg 'in' k" :=
  (try c msg (fun x => k))
  (at level 10, x name, c at level 200, msg at level 0, k at level 200).

Section WithEnv.

Context (env : Env).

(** *** Store operations ([RedisClient.Get], [Set], [RPush])

    [Get] answers [redis.Nil] for a key that is not set; [RPush] creates the
    list of a key that is not set; an operation on a key of the other kind
    is refused by the server.  An operation fails when the store cannot be
    reached ([StoreFault]) or refuses it, and in both cases the store has
    executed nothing.

    Time is not part of the world.  That a key written with an expiry
    lapses is the store's own step, [expire] below, taken between the calls
    of the service: within one call, [Get] finds what [Set] wrote. *)

Definition redis_Get (key : string) : Go string := fun w =>
  let ans :=
    match redis_fault env (trace w) with
    | Some f => Err (fault_text f)
    | None =>
        match redis w !! key with
        | None => Err redis_Nil
        | Some (RString v _) => Ok v
        | Some (RList _) => Err WRONGTYPE
        end
    end in
  (ans, record (RedisGet key ans) w).

Definition redis_Set (key value : string) (expiration : Z) : Go unit := fun w =>
  match redis_fault env (trace w) with
  | Some f =>
      let ans := Err (fault_text f) in
      (ans, record (RedisSet key value expiration ans) w)
  | None =>
      (Ok tt, record (RedisSet key value expiration (Ok tt))
                (set_redis (<[key := RString value expiration]> (redis w)) w))
  end.

Definition redis_RPush (key value : string) : Go unit := fun w =>
  match redis_fault env (trace w) with
  | Some f =>
      let ans := Err (fault_text f) in
      (ans, record (RedisRPush key value ans) w)
  | None =>
      match redis w !! key with
      | Some (RString _ _) =>
          (Err WRONGTYPE, record (RedisRPush key value (Err WRONGTYPE)) w)
      | Some (RList l) =>
          (Ok tt, record (RedisRPush key value (Ok tt))
                    (set_redis (<[key := RList (l ++ [value])]> (redis w)) w))
      | None =>
          (Ok tt, record (RedisRPush key value (Ok tt))
                    (set_redis (<[key := RList [value]]> (redis w)) w))
      end
  end.

(** The store dropping a string key whose expiry has passed.  No function
    of the source refreshes the expiry of a key it reads. *)
Definition expire (key : string) (w : World) : World :=
  match redis w !! key with
  | Some (RString _ _) => set_redis (delete key (redis w)) w
  | _ => w
  end.

(** *** HTTP

    [http.NewRequest] fails, before anything is sent, on a URL that does not
    parse; [client.Do] sends the request and fails with a transport error.
    [json.Marshal] of the request bodies (maps of strings) cannot fail, so
    the branches on its error are not reachable and are left out. *)

Definition NewRequest (req : Request) : Go Request := fun w =>
  match url_error env (Request_url req) with
  | Some e => (Err e, w)
  | None => (Ok req, w)
  end.

Definition client_Do (req : Request) : Go Response := fun w =>
  let ans := send env (trace w) req in
  (match ans with SendError e => Err e | Reply resp => Ok resp end,
   record (Http req ans) w).

Definition Decode {A} (json : Response -> result A) (resp : Response) : Go A :=
  fun w => (json resp, w).

Definition StatusOK : Z := 200.

(** *** [CreateAssistantWithMetadata] *)

Definition instructions (initReq : InitializeRequest) : string :=
  "You are a helpful assistant for the video titled '" +:+ Title initReq
  +:+ "' by '" +:+ Channel initReq
  +:+ "'. Here is the transcript: " +:+ Transcript initReq.

Definition CreateAssistantWithMetadata (initReq : InitializeRequest) : Go string :=
  let! req := NewRequest (PostAssistants (VideoID initReq) (instructions initReq))
    orfail "failed to create HTTP request: " in
  let! resp := client_Do req orfail "failed to send request: " in
  if negb (StatusCode resp =? StatusOK)%Z then
    fail ("failed to create assistant: " +:+ Body resp)
  else
    let! id := Decode (json_id env) resp orfail "failed to decode response: " in
    let! _ := redis_Set ("assistant_id:" +:+ VideoID initReq) id (24 * Hour)
      orfail "failed to store assistant ID in Redis: " in
    ret id.

(** *** [createThread] *)

Definition createThread : Go string :=
  let! req := NewRequest PostThreads orfail "failed to create request: " in
  let! resp := client_Do req orfail "failed to send request: " in
  if negb (StatusCode resp =? StatusOK)%Z then
    fail ("failed to create thread: " +:+ Body resp)
  else
    let! id := Decode (json_id env) resp orfail "failed to decode response: " in
    ret id.

(** *** [GetOrCreateThreadManager] *)

Definition GetOrCreateThreadManager (videoID assistantID : string) : Go ThreadManager :=
  fun w =>
    let finish (threadID : string) (w' : World) :=
      let tm := {| ThreadID := threadID |} in
      (Ok tm, set_threadManagers (<[assistantID := tm]> (threadManagers w')) w') in
    match redis_Get ("thread_id:" +:+ videoID) w with
    | (Err err, w1) =>
        if String.eqb err "redis: nil" then
          match createThread w1 with
          | (Err err', w2) => (Err ("failed to create thread: " +:+ err'), w2)
          | (Ok threadID, w2) =>
              match redis_Set ("thread_id:" +:+ videoID) threadID (24 * Hour) w2 with
              | (Err err'', w3) =>
                  (Err ("failed to store thread ID in Redis: " +:+ err''), w3)
              | (Ok _, w3) => finish threadID w3
              end
          end
        else (Err ("failed to retrieve thread ID from Redis: " +:+ err), w1)
    | (Ok threadID, w1) => finish threadID w1
    end.

(** *** [AddMessageToThread] *)

Definition AddMessageToThread (tm : ThreadManager) (role content videoID : string)
  : Go unit :=
  let! req := NewRequest (PostMessage (ThreadID tm) role content)
    orfail "failed to create HTTP request: " in
  let! resp := client_Do req orfail "failed to send request: " in
  if negb (StatusCode resp =? StatusOK)%Z then
    fail ("failed to add message to thread: " +:+ Body resp)
  else
    let! _ := redis_RPush ("interactions:" +:+ videoID) content
      orfail "failed to store interaction in Redis: " in
    ret tt.

(** *** [GetRunStatus] and [GetThreadMessages] *)

Definition GetRunStatus (tm : ThreadManager) (runID : string) : Go string :=
  let! req := NewRequest (GetRun (ThreadID tm) runID)
    orfail "failed to create HTTP request: " in
  let! resp := client_Do req orfail "failed to send request: " in
  if negb (StatusCode resp =? StatusOK)%Z then
    fail ("failed to get run status: " +:+ Body resp)
  else
    let! status := Decode (json_status env) resp orfail "failed to decode response: " in
    ret status.

Definition ReadAll (resp : Response) : Go string := fun w =>
  (match ReadErr resp with Some e => Err e | None => Ok (Body resp) end, w).

Definition GetThreadMessages (tm : ThreadManager) : Go (list Message) :=
  let! req := NewRequest (GetMessages (ThreadID tm))
    orfail "failed to create HTTP request: " in
  let! resp := client_Do req orfail "failed to send request: " in
  if negb (StatusCode resp =? StatusOK)%Z then
    fail ("failed to get thread messages: " +:+ Body resp)
  else
    let! bodyBytes := ReadAll resp orfail "failed to read response body: " in
    let! messages := (fun w => (json_messages env bodyBytes, w))
      orfail "failed to decode response: " in
    ret messages.

(** *** [RunAssistant]

    The body of the loop over the fragments of one message:
    [assistantResponse += fragment.Text.Value] for every fragment whose type
    is "text" and whose [Text] is not nil. *)
Fixpoint collect_text (fragments : list ContentFragment) (assistantResponse : string)
  : string :=
  match fragments with
  | [] => assistantResponse
  | fragment :: rest =>
      collect_text rest
        match String.eqb (Type' fragment) "text", Text fragment with
        | true, Some text => assistantResponse +:+ Value text
        | _, _ => assistantResponse
        end
  end.

(** The loop over the messages: it stops at the first message whose role is
    "assistant", with the text collected from it; [None] when the loop runs
    to its end. *)
Fixpoint first_assistant (messages : list Message) : option string :=
  match messages with
  | [] => None
  | msg :: rest =>
      if String.eqb (Role msg) "assistant"
      then Some (collect_text (Content msg) "")
      else first_assistant rest
  end.

(** What the source does once the status is "completed". *)
Definition on_completed (tm : ThreadManager) (videoID : string) : Go string :=
  let! messages := GetThreadMessages tm orfail "failed to get thread messages: " in
  match first_assistant messages with
  | Some assistantResponse =>
      let! _ := redis_RPush ("interactions:" +:+ videoID)
                  ("Assistant: " +:+ assistantResponse)
        orfail "failed to store assistant response in Redis: " in
      ret assistantResponse
  | None => fail "no assistant message found"
  end.

(** The polling loop [for { ... }].  The source's loop has no bound; [fuel]
    is the number of rounds the embedding runs, and [None] says that the loop
    is still polling after that many. *)
Fixpoint poll (fuel : nat) (tm : ThreadManager) (runID videoID : string) (w : World)
  : option (result string * World) :=
  match fuel with
  | O => None
  | S fuel' =>
      let w0 := record (Sleep (2 * Second)) w in
      match GetRunStatus tm runID w0 with
      | (Err err, w1) => Some (Err ("failed to get run status: " +:+ err), w1)
      | (Ok status, w1) =>
          if String.eqb status "completed"
          then Some (on_completed tm videoID w1)
          else poll fuel' tm runID videoID w1
      end
  end.

(** The start of a run, up to the decoded answer. *)
Definition start_run (tm : ThreadManager) (assistantID : string) : Go RunResp :=
  let! req := NewRequest (PostRuns (ThreadID tm) assistantID)
    orfail "failed to create HTTP request: " in
  let! resp := client_Do req orfail "failed to send request: " in
  if negb (StatusCode resp =? StatusOK)%Z then
    fail ("failed to run assistant: " +:+ Body resp)
  else
    let! runResp := Decode (json_run env) resp orfail "failed to decode response: " in
    ret runResp.

Definition RunAssistant (fuel : nat) (tm : ThreadManager) (assistantID videoID : string)
  (w : World) : option (result string * World) :=
  match start_run tm assistantID w with
  | (Err err, w1) => Some (Err err, w1)
  | (Ok runResp, w1) => poll fuel tm (run_ID runResp) videoID w1
  end.

(** *** [AskAssistantQuestion] *)

Definition AskAssistantQuestion (fuel : nat) (videoID assistantID question : string)
  (w : World) : option (result string * World) :=
  match GetOrCreateThreadManager videoID assistantID w with
  | (Err err, w1) => Some (Err ("failed to get thread manager: " +:+ err), w1)
  | (Ok threadManager, w1) =>
      match AddMessageToThread threadManager "user" question videoID w1 with
      | (Err err, w2) => Some (Err ("failed to add message: " +:+ err), w2)
      | (Ok _, w2) => RunAssistant fuel threadManager assistantID videoID w2
      end
  end.

(** *** Several questions in a row

    The questions of [questions] asked one after the other about one video;
    the run stops at the first that fails, and gives the replies when all
    succeed. *)
Fixpoint ask_all (fuel : nat) (videoID assistantID : string) (questions : list string)
  (w : World) : option (result (list string) * World) :=
  match questions with
  | [] => Some (Ok [], w)
  | question :: rest =>
      match AskAssistantQuestion fuel videoID assistantID question w with
      | None => None
      | Some (Err err, w1) => Some (Err err, w1)
      | Some (Ok reply, w1) =>
          match ask_all fuel videoID assistantID rest w1 with
          | None => None
          | Some (Err err, w2) => Some (Err err, w2)
          | Some (Ok replies, w2) => Some (Ok (reply :: replies), w2)
          end
      end
  end.

End WithEnv.

(** ** Views of the world *)

(** The Interaction Log of a video: the list under [interactions:<videoID>]. *)
Definition interactions (w : World) (videoID : string) : list string :=
  match redis w !! ("interactions:" +:+ videoID) with
  | Some (RList l) => l
  | _ => []
  end.

(** The calls made between two worlds of one execution. *)
Definition events_since (w w' : World) : list Event :=
  drop (length (trace w)) (trace w').

Definition is_create_assistant (ev : Event) : bool :=
  match ev with Http (PostAssistants _ _) _ => true | _ => false end.

Definition is_create_thread (ev : Event) : bool :=
  match ev with Http PostThreads _ => true | _ => false end.

(** A transport error or a status other than 200. *)
Definition failed (ans : Exchange) : bool :=
  match ans with
  | SendError _ => true
  | Reply resp => negb (StatusCode resp =? StatusOK)%Z
  end.

Definition is_RPush (ev : Event) : bool :=
  match ev with RedisRPush _ _ _ => true | _ => false end.

(** The key of the Interaction Log and of the thread of a video. *)
Definition interactions_key (videoID : string) : string := "interactions:" +:+ videoID.
Definition thread_key (videoID : string) : string := "thread_id:" +:+ videoID.
Definition assistant_key (videoID : string) : string := "assistant_id:" +:+ videoID.

(** [w'] comes after [w] in one execution, by calls that all satisfy [P]. *)
Definition steps (P : Event -> Prop) (w w' : World) : Prop :=
  exists evs, trace w' = trace w ++ evs /\ Forall P evs.

(** What a function leaves of the store and of the in-process map. *)
Definition untouched (w w' : World) : Prop :=
  redis w' = redis w /\ threadManagers w' = threadManagers w.

(** The store after a push of [value] on the log of a video. *)
Definition pushed (w : World) (videoID value : string) : gmap string RedisValue :=
  <[interactions_key videoID := RList (interactions w videoID ++ [value])]> (redis w).

(** The calls each function may make. *)
Definition footprint_thread (videoID : string) (ev : Event) : Prop :=
  match ev with
  | RedisGet key _ => key = thread_key videoID
  | Http PostThreads _ => True
  | RedisSet key _ expiration _ =>
      key = thread_key videoID /\ expiration = (24 * Hour)%Z
  | _ => False
  end.

Definition footprint_post (tm : ThreadManager) (role content videoID : string)
  (ev : Event) : Prop :=
  match ev with
  | Http (PostMessage t r c) _ => t = ThreadID tm /\ r = role /\ c = content
  | RedisRPush key value _ => key = interactions_key videoID /\ value = content
  | _ => False
  end.

Definition footprint_start (tm : ThreadManager) (assistantID : string) (ev : Event)
  : Prop :=
  match ev with
  | Http (PostRuns t a) _ => t = ThreadID tm /\ a = assistantID
  | _ => False
  end.

Definition footprint_poll (tm : ThreadManager) (videoID : string) (ev : Event) : Prop :=
  match ev with
  | Sleep d => d = (2 * Second)%Z
  | Http (GetRun t _) _ => t = ThreadID tm
  | Http (GetMessages t) _ => t = ThreadID tm
  | RedisRPush key _ _ => key = interactions_key videoID
  | _ => False
  end.

Definition footprint_assistant (initReq : InitializeRequest) (ev : Event) : Prop :=
  match ev with
  | Http (PostAssistants name text) _ =>
      name = VideoID initReq /\ text = instructions initReq
  | RedisSet key _ expiration _ =>
      key = assistant_key (VideoID initReq) /\ expiration = (24 * Hour)%Z
  | _ => False
  end.

Definition footprint_run (tm : ThreadManager) (assistantID videoID : string)
  (ev : Event) : Prop :=
  footprint_start tm assistantID ev \/ footprint_poll tm videoID ev.

(** ** The reply, in the words of the specification

    A [Message] as the source decodes it carries no time, so which turn is
    the most recent cannot be read off a message: it is a matter of the
    order of turns in the thread.  A thread is written here as the list of
    its turns in the order they were made, oldest first; the provider lists
    it newest first or in that order. *)
Definition is_assistant (m : Message) : bool := String.eqb (Role m) "assistant".

Definition text_of (fragment : ContentFragment) : option string :=
  if String.eqb (Type' fragment) "text" then Value <$> Text fragment else None.

Definition text_fragments (m : Message) : list string := omap text_of (Content m).

(** The text fragments of a turn, concatenated in their order. *)
Definition turn_text (m : Message) : string :=
  foldr String.append "" (text_fragments m).

(** The most recent turn of a thread whose role is "assistant": the last
    such turn made. *)
Definition most_recent_assistant (thread : list Message) : option Message :=
  last (filter (fun m => is_assistant m = true) thread).

(** The first turn of a listing whose role is "assistant". *)
Definition first_listed_assistant (messages : list Message) : option Message :=
  head (filter (fun m => is_assistant m = true) messages).

(** The two ways a provider lists a thread. *)
Inductive Listing := NewestFirst | OldestFirst.

Definition listed (order : Listing) (thread : list Message) : list Message :=
  match order with
  | NewestFirst => reverse thread
  | OldestFirst => thread
  end.

(** ** When the loop ends

    The provider answers [k] rounds of the loop with a status other than
    "completed", from the world [w] on; [w'] is the world after them. *)
Inductive waits (env : Env) (tm : ThreadManager) (runID : string)
  : nat -> World -> World -> Prop :=
| waits_O w : waits env tm runID 0 w w
| waits_S k w status w1 w' :
    GetRunStatus env tm runID (record (Sleep (2 * Second)) w) = (Ok status, w1) ->
    String.eqb status "completed" = false ->
    waits env tm runID k w1 w' ->
    waits env tm runID (S k) w w'.

(** The round after them is answered "completed", and [w'] is the world
    in which the messages are then read. *)
Definition completes (env : Env) (tm : ThreadManager) (runID : string) (k : nat)
  (w w' : World) : Prop :=
  exists w1,
    waits env tm runID k w w1
    /\ GetRunStatus env tm runID (record (Sleep (2 * Second)) w1) = (Ok "completed", w').

(** The log K questions and their replies leave: question, prefixed reply,
    question, prefixed reply, ... *)
Fixpoint dialogue (questions replies : list string) : list string :=
  match questions, replies with
  | question :: questions', reply :: replies' =>
      question :: ("Assistant: " +:+ reply) :: dialogue questions' replies'
  | _, _ => []
  end.

Definition count (p : Event -> bool) (evs : list Event) : nat :=
  length (filter (fun ev => p ev = true) evs).

(** ** Further views *)

(** The requests that name a thread name the thread [t]. *)
Definition on_thread (t : string) (ev : Event) : Prop :=
  match ev with
  | Http (PostMessage t' _ _) _ => t' = t
  | Http (PostRuns t' _) _ => t' = t
  | Http (GetRun t' _) _ => t' = t
  | Http (GetMessages t') _ => t' = t
  | _ => True
  end.

Definition is_sleep (ev : Event) : bool :=
  match ev with Sleep _ => true | _ => false end.

Definition is_get_run (ev : Event) : bool :=
  match ev with Http (GetRun _ _) _ => true | _ => false end.

Definition is_post_runs (ev : Event) : bool :=
  match ev with Http (PostRuns _ _) _ => true | _ => false end.

Definition is_get_messages (ev : Event) : bool :=
  match ev with Http (GetMessages _) _ => true | _ => false end.

Definition is_store (ev : Event) : bool :=
  match ev with
  | RedisGet _ _ | RedisSet _ _ _ _ | RedisRPush _ _ _ => true
  | _ => false
  end.

(** The store answered an operation with its wrong-kind error. *)
Definition refused_for_kind (ev : Event) : Prop :=
  match ev with
  | RedisGet _ (Err e) => e = WRONGTYPE
  | RedisSet _ _ _ (Err e) => e = WRONGTYPE
  | RedisRPush _ _ (Err e) => e = WRONGTYPE
  | _ => False
  end.

(** The keys of the service hold values of the kind the service reads
    there: no list under a key of a thread or of an assistant, no string
    under the key of a log. *)
Definition well_kinded (m : gmap string RedisValue) : Prop :=
  forall videoID,
    (forall l, m !! thread_key videoID <> Some (RList l))
    /\ (forall l, m !! assistant_key videoID <> Some (RList l))
    /\ (forall v e, m !! interactions_key videoID <> Some (RString v e)).

(** A fragment that adds to the reply: its type is "text" and it has a
    text. *)
Definition contributes (fragment : ContentFragment) : bool :=
  String.eqb (Type' fragment) "text"
  && match Text fragment with Some _ => true | None => false end.

End Services.

(** ** The HTTP handlers ([pkg/handlers]) *)

Module Handlers.

Import Services.

Record InitRequest := {
  init_VideoID : string;
  init_Title : string;
  init_Channel : string;
  init_Transcript : list string
}.

Record QuestionRequest := {
  question_VideoID : string;
  question_UserQuestion : string
}.

(** What a handler leaves in its [http.ResponseWriter]. *)
Inductive Payload :=
| PlainText (s : string)
| JSON (fields : list (string * string)).

Record ResponseWriter := {
  Code : Z;
  ContentType : string;
  Written : Payload
}.

Definition StatusOK : Z := 200.
Definition StatusBadRequest : Z := 400.
Definition StatusInternalServerError : Z := 500.

Definition newline : string := String "010"%char EmptyString.

(** [http.Error]: a plain-text reply, the message on a line. *)
Definition http_Error (error : string) (code : Z) : ResponseWriter :=
  {| Code := code; ContentType := "text/plain; charset=utf-8";
     Written := PlainText (error +:+ newline) |}.

Definition RespondWithError (code : Z) (message : string) : ResponseWriter :=
  {| Code := code; ContentType := "application/json";
     Written := JSON [("error", message)] |}.

(** A handler that writes a JSON object and no status: the reply is 200. *)
Definition respond_json (fields : list (string * string)) : ResponseWriter :=
  {| Code := StatusOK; ContentType := "application/json"; Written := JSON fields |}.

Section WithCollaborators.

(** The collaborators of the handlers: the decoding of the request body into
    the handler's struct ([encoding/json]) and the two entry points of the
    service, which are not among the files of the source.  A service call may
    not return (the polling loop below it has no bound): [None]. *)
Context (decode_InitRequest : string -> result InitRequest).
Context (decode_QuestionRequest : string -> result QuestionRequest).
Context (CreateGPTSession :
  string -> string -> string -> list string -> World -> option (result unit * World)).
Context (FetchGPTResponse :
  string -> string -> World -> option (result string * World)).

Definition InitializeGPTSession (body : string) (w : World)
  : option (ResponseWriter * World) :=
  match decode_InitRequest body with
  | Err _ => Some (http_Error "Invalid request payload" StatusBadRequest, w)
  | Ok initReq =>
      match CreateGPTSession (init_VideoID initReq) (init_Title initReq)
              (init_Channel initReq) (init_Transcript initReq) w with
      | None => None
      | Some (Err _, w1) =>
          Some (http_Error "Failed to initialize GPT session" StatusInternalServerError, w1)
      | Some (Ok _, w1) =>
          Some (respond_json [("message", "GPT session initialized")], w1)
      end
  end.

Definition AskGPTQuestion (body : string) (w : World)
  : option (ResponseWriter * World) :=
  match decode_QuestionRequest body with
  | Err _ => Some (RespondWithError StatusBadRequest "Invalid request payload", w)
  | Ok questionReq =>
      match FetchGPTResponse (question_VideoID questionReq)
              (question_UserQuestion questionReq) w with
      | None => None
      | Some (Err err, w1) =>
          Some (RespondWithError StatusInternalServerError
                  ("Failed to get AI response: " +:+ err), w1)
      | Some (Ok aiResponse, w1) =>
          Some (respond_json [("response", aiResponse)], w1)
      end
  end.

End WithCollaborators.

End Handlers.

(** ** Environments of the examples *)

Module Scenario.

Import Services.

Definition reply (code : Z) (body : string) : Exchange :=
  Reply {| StatusCode := code; Body := body; ReadErr := None |}.

Definition text (s : string) : ContentFragment :=
  {| Type' := "text"; Text := Some {| Value := s |} |}.

(** A thread as the provider lists it, newest message first: the
    assistant's answer in two fragments, then the user's question. *)
Definition hello_messages : list Message :=
  [ {| ID := "msg_2"; Role := "assistant";
       Content := [text "Hello, "; text "world."] |};
    {| ID := "msg_1"; Role := "user"; Content := [text "Hi"] |} ].

(** The number of status requests since the last run was started. *)
Definition polls (history : list Event) : nat :=
  fold_left
    (fun n ev =>
       match ev with
       | Http (PostRuns _ _) _ => O
       | Http (GetRun _ _) _ => S n
       | _ => n
       end)
    history O.

(** A provider that accepts everything and reports the statuses of
    [statuses], one per poll, and [final] after them. *)
Definition provider (statuses : list string) (final : string)
  (history : list Event) (req : Request) : Exchange :=
  match req with
  | PostAssistants name _ => reply 200 ("asst_" +:+ name)
  | PostThreads => reply 200 "thread_1"
  | PostMessage _ _ _ => reply 200 "{}"
  | PostRuns _ _ => reply 200 "run_1"
  | GetRun _ _ => reply 200 (nth (polls history) statuses final)
  | GetMessages _ => reply 200 "messages"
  end.

(** Everything works: the job is queued, then running, then completed, and
    the thread then reads [hello_messages]. *)
Definition calm : Env :=
  {| url_error := fun _ => None;
     send := provider ["queued"; "running"] "completed";
     json_id := fun resp => Ok (Body resp);
     json_run := fun resp => Ok {| run_ID := Body resp; run_Status := "queued" |};
     json_status := fun resp => Ok (Body resp);
     json_messages := fun _ => Ok hello_messages;
     redis_fault := fun _ => None |}.

Definition with_send (send' : list Event -> Request -> Exchange) (e : Env) : Env :=
  {| url_error := url_error e; send := send';
     json_id := json_id e; json_run := json_run e;
     json_status := json_status e; json_messages := json_messages e;
     redis_fault := redis_fault e |}.

Definition with_redis_fault (fault : list Event -> option StoreFault) (e : Env) : Env :=
  {| url_error := url_error e; send := send e;
     json_id := json_id e; json_run := json_run e;
     json_status := json_status e; json_messages := json_messages e;
     redis_fault := fault |}.

(** The job fails: every poll reports the status "failed". *)
Definition failed_job : Env := with_send (provider [] "failed") calm.

(** JSON text: the double quote, a quoted string, a field. *)
Definition dq : string := String "034"%char "".

Definition quoted (s : string) : string := dq +:+ s +:+ dq.

Definition field (name value : string) : string := quoted name +:+ ":" +:+ value.

(** The provider refuses to start a job, with a body of its own. *)
Definition refused_body : string :=
  "{" +:+ field "error" (quoted "rate_limit_exceeded") +:+ "}".

Definition refuses (refused : Request -> bool) (history : list Event) (req : Request)
  : Exchange :=
  if refused req then reply 429 refused_body
  else provider [] "completed" history req.

Definition is_PostRuns (req : Request) : bool :=
  match req with PostRuns _ _ => true | _ => false end.

Definition is_PostMessage (req : Request) : bool :=
  match req with PostMessage _ _ _ => true | _ => false end.

Definition no_job : Env := with_send (refuses is_PostRuns) calm.

(** The provider refuses the posting of a message. *)
Definition no_post : Env := with_send (refuses is_PostMessage) calm.

(** The store cannot be reached right after the first call of a kind: the
    write of the identifier that call created is lost. *)
Definition lost_after (p : Event -> bool) (history : list Event) : option StoreFault :=
  match last history with
  | Some ev =>
      if p ev && (count p history =? 1)%nat then Some ConnRefused else None
  | None => None
  end.

Definition lost_thread_write : Env := with_redis_fault (lost_after is_create_thread) calm.

Definition lost_assistant_write : Env :=
  with_redis_fault (lost_after is_create_assistant) calm.

(** The store cannot be reached at all. *)
Definition store_down : Env := with_redis_fault (fun _ => Some DialTimeout) calm.

(** The job completes, and the thread then holds the user's question only. *)
Definition question_only : list Message :=
  [ {| ID := "msg_1"; Role := "user"; Content := [text "Hi"] |} ].

Definition with_messages (messages : list Message) (e : Env) : Env :=
  {| url_error := url_error e; send := send e;
     json_id := json_id e; json_run := json_run e;
     json_status := json_status e; json_messages := fun _ => Ok messages;
     redis_fault := redis_fault e |}.

Definition no_answer : Env := with_messages question_only calm.

(** The provider refuses to create anything. *)
Definition is_creation (req : Request) : bool :=
  match req with PostAssistants _ _ | PostThreads => true | _ => false end.

Definition no_creation : Env := with_send (refuses is_creation) calm.

(** A thread in the order its turns were made, which is also how a provider
    lists it that lists oldest first: the question, an answer, and a later
    answer. *)
Definition oldest_first : list Message :=
  [ {| ID := "msg_1"; Role := "user"; Content := [text "Hi"] |};
    {| ID := "msg_2"; Role := "assistant";
       Content := [text "Hello, "; {| Type' := "image_file"; Text := None |};
                   text "world."] |};
    {| ID := "msg_3"; Role := "assistant"; Content := [text "Later."] |} ].

(** The provider lists the thread [oldest_first] as it is, oldest first. *)
Definition lists_oldest_first : Env :=
  with_messages (listed OldestFirst oldest_first) calm.

(** The world at the start: an empty store, an empty map, no call made. *)
Definition fresh : World :=
  {| redis := ∅; threadManagers := ∅; trace := [] |}.

(** The world a run ends in ([fresh] when it does not end). *)
Definition final {A} (run : option (result A * World)) : World :=
  match run with Some (_, w) => w | None => fresh end.

Definition outcome {A} (run : option (result A * World)) : option (result A) :=
  fst <$> run.

(** A run ended, and with this result and world. *)
Definition ends_with {A} (run : option (result A * World)) (r : result A) : Prop :=
  run = Some (r, final run).

Definition request_v1 : InitializeRequest :=
  {| SystemInstructions := ""; VideoID := "v1"; Title := "T"; Channel := "C";
     Transcript := "line1 line2" |}.

(** For the examples of the handlers.  The bodies of two requests, in
    JSON, and the body "not json", which is no JSON text. *)
Definition init_body : string :=
  "{" +:+ field "video_id" (quoted "v1") +:+ ","
      +:+ field "title" (quoted "T") +:+ ","
      +:+ field "channel" (quoted "C") +:+ ","
      +:+ field "transcript" ("[" +:+ quoted "line1" +:+ "," +:+ quoted "line2" +:+ "]")
      +:+ "}".

Definition question_body : string :=
  "{" +:+ field "video_id" (quoted "v1") +:+ ","
      +:+ field "user_question" (quoted "Hi") +:+ "}".

(** [json.NewDecoder(r.Body).Decode] on these bodies, and on these only:
    the request of [init_body] or [question_body], and for "not json" the
    error of [encoding/json].  The examples decode no other body; one that
    is not listed is answered as "not json" is, whatever it holds. *)
Definition not_json_error : string :=
  "invalid character 'o' in literal null (expecting 'u')".

Definition decode_init (body : string) : result Handlers.InitRequest :=
  if String.eqb body init_body
  then Ok {| Handlers.init_VideoID := "v1"; Handlers.init_Title := "T";
             Handlers.init_Channel := "C";
             Handlers.init_Transcript := ["line1"; "line2"] |}
  else Err not_json_error.

Definition decode_question (body : string) : result Handlers.QuestionRequest :=
  if String.eqb body question_body
  then Ok {| Handlers.question_VideoID := "v1";
             Handlers.question_UserQuestion := "Hi" |}
  else Err not_json_error.

(** The two services of the handlers, played by the functions of the
    service in the environment [calm]. *)

Definition create_session (videoID title channel : string) (transcript : list string)
  (w : World) : option (result unit * World) :=
  let initReq :=
    {| SystemInstructions := ""; VideoID := videoID; Title := title;
       Channel := channel;
       Transcript := foldr (fun line rest => line +:+ " " +:+ rest) "" transcript |} in
  match CreateAssistantWithMetadata calm initReq w with
  | (Ok _, w1) => Some (Ok tt, w1)
  | (Err err, w1) => Some (Err err, w1)
  end.

Definition fetch_response (videoID question : string) (w : World)
  : option (result string * World) :=
  AskAssistantQuestion calm 3 videoID ("asst_" +:+ videoID) question w.

End Scenario.

(** * Properties *)

Module Properties.

Import Services.

(** ** Tactics and small facts *)

Ltac unfold_go :=
  unfold try, ret, fail, NewRequest, client_Do, Decode, ReadAll,
    redis_Get, redis_Set, redis_RPush in *.

Ltac break_match :=
  repeat match goal with
    | H : context [match ?x with _ => _ end] |- _ => destruct x eqn:?; simplify_eq/=
    | |- context [match ?x with _ => _ end] => destruct x eqn:?; simplify_eq/=
    end.

Lemma events_since_app w w' evs :
  trace w' = trace w ++ evs -> events_since w w' = evs.
Proof.
  intros H. unfold events_since. rewrite H. by rewrite drop_app_length.
Qed.

Lemma events_since_record w ev : events_since w (record ev w) = [ev].
Proof. by apply events_since_app. Qed.

Lemma steps_refl P w : steps P w w.
Proof. exists []. split; [by rewrite app_nil_r | constructor]. Qed.

Lemma steps_trans P w1 w2 w3 : steps P w1 w2 -> steps P w2 w3 -> steps P w1 w3.
Proof.
  intros (e1 & H1 & F1) (e2 & H2 & F2). exists (e1 ++ e2). split.
  - by rewrite H2, H1, app_assoc.
  - by apply Forall_app.
Qed.

Lemma steps_record (P : Event -> Prop) ev w : P ev -> steps P w (record ev w).
Proof. intros H. exists [ev]. split; [done | by repeat constructor]. Qed.

Lemma steps_impl (P Q : Event -> Prop) w w' :
  (forall ev, P ev -> Q ev) -> steps P w w' -> steps Q w w'.
Proof.
  intros HPQ (evs & H & F). exists evs. split; [done|].
  eapply Forall_impl; eauto.
Qed.

Lemma steps_events_since P w w' : steps P w w' -> Forall P (events_since w w').
Proof. intros (evs & H & F). by rewrite (events_since_app _ _ _ H). Qed.

Lemma steps_set_redis P m w w' : steps P w w' -> steps P w (set_redis m w').
Proof. by intros (evs & H & F); exists evs. Qed.

Lemma steps_set_threadManagers P m w w' :
  steps P w w' -> steps P w (set_threadManagers m w').
Proof. by intros (evs & H & F); exists evs. Qed.

Lemma events_since_steps w1 w2 w3 :
  (exists e1, trace w2 = trace w1 ++ e1) ->
  (exists e2, trace w3 = trace w2 ++ e2) ->
  events_since w1 w3 = events_since w1 w2 ++ events_since w2 w3.
Proof.
  intros [e1 H1] [e2 H2].
  rewrite (events_since_app _ _ _ H1), (events_since_app _ _ _ H2).
  apply events_since_app. by rewrite H2, H1, app_assoc.
Qed.

Ltac solve_steps :=
  lazymatch goal with
  | |- steps _ ?w ?w => apply steps_refl
  | |- steps _ _ (set_redis _ _) => apply steps_set_redis; solve_steps
  | |- steps _ _ (set_threadManagers _ _) => apply steps_set_threadManagers; solve_steps
  | |- steps _ ?w (record _ ?w) => apply steps_record; simpl; auto
  | |- steps _ ?w (record _ ?w1) =>
      apply steps_trans with w1; [solve_steps | apply steps_record; simpl; auto]
  | _ => eauto
  end.

Section Effects.

Context (env : Env).

Lemma AddMessageToThread_effect tm role content videoID w r w' :
  AddMessageToThread env tm role content videoID w = (r, w') ->
  steps (footprint_post tm role content videoID) w w'
  /\ threadManagers w' = threadManagers w
  /\ redis w' =
       match r with
       | Ok _ => <[interactions_key videoID :=
                    RList (interactions w videoID ++ [content])]> (redis w)
       | Err _ => redis w
       end.
Proof.
  unfold AddMessageToThread, interactions, interactions_key. unfold_go.
  intros H. break_match; (split; [solve_steps | done]).
Qed.

Lemma GetRunStatus_effect tm runID videoID w r w' :
  GetRunStatus env tm runID w = (r, w') ->
  steps (footprint_poll tm videoID) w w' /\ untouched w w'.
Proof.
  unfold GetRunStatus, untouched. unfold_go.
  intros H. break_match; (split; [solve_steps | done]).
Qed.

Lemma GetThreadMessages_effect tm videoID w r w' :
  GetThreadMessages env tm w = (r, w') ->
  steps (footprint_poll tm videoID) w w' /\ untouched w w'.
Proof.
  unfold GetThreadMessages, untouched. unfold_go.
  intros H. break_match; (split; [solve_steps | done]).
Qed.

Lemma start_run_effect tm assistantID w r w' :
  start_run env tm assistantID w = (r, w') ->
  steps (footprint_start tm assistantID) w w' /\ untouched w w'.
Proof.
  unfold start_run, untouched. unfold_go.
  intros H. break_match; (split; [solve_steps | done]).
Qed.

Lemma on_completed_effect tm videoID w r w' :
  on_completed env tm videoID w = (r, w') ->
  steps (footprint_poll tm videoID) w w'
  /\ threadManagers w' = threadManagers w
  /\ redis w' =
       match r with
       | Ok reply => pushed w videoID ("Assistant: " +:+ reply)
       | Err _ => redis w
       end.
Proof.
  unfold on_completed, try at 1. intros H.
  destruct (GetThreadMessages env tm w) as [[messages|e] w1] eqn:Hm;
    destruct (GetThreadMessages_effect tm videoID _ _ _ Hm) as (Hs & Hr & Ht).
  - destruct (first_assistant messages) as [reply|]; revert H;
      unfold pushed, interactions, interactions_key; unfold_go; rewrite <- Hr;
      intros H; break_match;
      (split; [eapply steps_trans; [exact Hs | solve_steps] | by rewrite <- ?Ht]).
  - simplify_eq. by rewrite Hr, Ht.
Qed.

Lemma poll_effect fuel tm runID videoID w r w' :
  poll env fuel tm runID videoID w = Some (r, w') ->
  steps (footprint_poll tm videoID) w w'
  /\ threadManagers w' = threadManagers w
  /\ redis w' =
       match r with
       | Ok reply => pushed w videoID ("Assistant: " +:+ reply)
       | Err _ => redis w
       end.
Proof.
  revert w. induction fuel as [|fuel IH]; intros w H; [done|].
  simpl in H.
  destruct (GetRunStatus env tm runID _) as [[status|e] w1] eqn:Hs.
  - destruct (GetRunStatus_effect tm runID videoID _ _ _ Hs) as (Hs1 & Hr1 & Ht1).
    assert (Hw : steps (footprint_poll tm videoID) w w1).
    { eapply steps_trans; [|exact Hs1]. by apply steps_record. }
    simpl in Hr1, Ht1.
    destruct (String.eqb status "completed").
    + simplify_eq. destruct (on_completed env tm videoID w1) as [r1 w2] eqn:Hc.
      destruct (on_completed_effect tm videoID _ _ _ Hc) as (Hs2 & Ht2 & Hr2).
      simplify_eq. split; [by eapply steps_trans|]. split; [congruence|].
      rewrite Hr2. unfold pushed, interactions. by rewrite Hr1.
    + destruct (IH _ H) as (Hs2 & Ht2 & Hr2).
      split; [by eapply steps_trans|]. split; [congruence|].
      rewrite Hr2. unfold pushed, interactions. by rewrite Hr1.
  - destruct (GetRunStatus_effect tm runID videoID _ _ _ Hs) as (Hs1 & Hr1 & Ht1).
    simplify_eq. split; [|done].
    eapply steps_trans; [|exact Hs1]. by apply steps_record.
Qed.

Lemma RunAssistant_effect fuel tm assistantID videoID w r w' :
  RunAssistant env fuel tm assistantID videoID w = Some (r, w') ->
  steps (footprint_run tm assistantID videoID) w w'
  /\ threadManagers w' = threadManagers w
  /\ redis w' =
       match r with
       | Ok reply => pushed w videoID ("Assistant: " +:+ reply)
       | Err _ => redis w
       end.
Proof.
  unfold RunAssistant. intros H.
  destruct (start_run env tm assistantID w) as [[runResp|e] w1] eqn:Hs;
    destruct (start_run_effect _ _ _ _ _ Hs) as (Hs1 & Hr1 & Ht1).
  - destruct (poll_effect _ _ _ _ _ _ _ H) as (Hs2 & Ht2 & Hr2).
    split; [|split; [congruence|]].
    + eapply steps_trans; (eapply steps_impl; [|eassumption]); intros ev;
        unfold footprint_run; tauto.
    + rewrite Hr2. unfold pushed, interactions. by rewrite Hr1.
  - simplify_eq. split; [|done].
    eapply steps_impl; [|eassumption]. intros ev; unfold footprint_run; tauto.
Qed.

Lemma fault_text_not_Nil f : String.eqb (fault_text f) "redis: nil" = false.
Proof. by destruct f. Qed.

Lemma GetOrCreateThreadManager_effect videoID assistantID w r w' :
  GetOrCreateThreadManager env videoID assistantID w = (r, w') ->
  steps (footprint_thread videoID) w w'
  /\ redis w' =
       match r, redis w !! thread_key videoID with
       | Ok tm, None =>
           <[thread_key videoID := RString (ThreadID tm) (24 * Hour)]> (redis w)
       | _, _ => redis w
       end.
Proof.
  unfold GetOrCreateThreadManager, createThread, thread_key. unfold_go.
  intros H.
  destruct (redis_fault env (trace w)) as [f|] eqn:Hf.
  { rewrite fault_text_not_Nil in H. simplify_eq. split; [solve_steps | done]. }
  destruct (redis w !! ("thread_id:" +:+ videoID)) as [[t e|l]|] eqn:Hk;
    simpl in H.
  - simplify_eq. split; [solve_steps | done].
  - simplify_eq. split; [solve_steps | done].
  - break_match; (split; [solve_steps | done]).
Qed.

(** The three ways [AskAssistantQuestion] ends. *)
Lemma AskAssistantQuestion_inv fuel videoID assistantID question w r w' :
  AskAssistantQuestion env fuel videoID assistantID question w = Some (r, w') ->
  (exists e, GetOrCreateThreadManager env videoID assistantID w = (Err e, w')
             /\ r = Err ("failed to get thread manager: " +:+ e))
  \/ (exists tm w1 e,
        GetOrCreateThreadManager env videoID assistantID w = (Ok tm, w1)
        /\ AddMessageToThread env tm "user" question videoID w1 = (Err e, w')
        /\ r = Err ("failed to add message: " +:+ e))
  \/ (exists tm w1 w2,
        GetOrCreateThreadManager env videoID assistantID w = (Ok tm, w1)
        /\ AddMessageToThread env tm "user" question videoID w1 = (Ok tt, w2)
        /\ RunAssistant env fuel tm assistantID videoID w2 = Some (r, w')).
Proof.
  unfold AskAssistantQuestion. intros H.
  destruct (GetOrCreateThreadManager env videoID assistantID w)
    as [[tm|e] w1] eqn:Hg.
  - destruct (AddMessageToThread env tm "user" question videoID w1)
      as [[[]|e] w2] eqn:Ha.
    + right; right. by exists tm, w1, w2.
    + simplify_eq. right; left. by exists tm, w1, e.
  - simplify_eq. left. by exists e.
Qed.

Lemma thread_key_not_interactions v v' : thread_key v <> interactions_key v'.
Proof. unfold thread_key, interactions_key. simpl. intros H. discriminate H. Qed.

Lemma interactions_same w w' videoID :
  redis w' = redis w -> interactions w' videoID = interactions w videoID.
Proof. unfold interactions. by intros ->. Qed.

Lemma interactions_pushed w w' videoID value :
  redis w' = pushed w videoID value ->
  interactions w' videoID = interactions w videoID ++ [value].
Proof.
  intros H. unfold interactions at 1. fold (interactions_key videoID).
  rewrite H. unfold pushed. by rewrite lookup_insert_eq.
Qed.

Lemma interactions_GetOrCreateThreadManager videoID assistantID v w r w' :
  GetOrCreateThreadManager env videoID assistantID w = (r, w') ->
  interactions w' v = interactions w v.
Proof.
  intros H. destruct (GetOrCreateThreadManager_effect _ _ _ _ _ H) as [_ Hr].
  unfold interactions. fold (interactions_key v). rewrite Hr.
  destruct r as [tm|e]; [|done].
  destruct (redis w !! thread_key videoID); [done|].
  rewrite lookup_insert_ne; [done | apply thread_key_not_interactions].
Qed.

(** A successful question adds the question and the prefixed reply. *)
Lemma AskAssistantQuestion_log fuel videoID assistantID question w reply w' :
  AskAssistantQuestion env fuel videoID assistantID question w = Some (Ok reply, w') ->
  interactions w' videoID
  = interactions w videoID ++ [question; "Assistant: " +:+ reply].
Proof.
  intros H.
  destruct (AskAssistantQuestion_inv _ _ _ _ _ _ _ H)
    as [(e & _ & ?) | [(tm & w1 & e & _ & _ & ?) | (tm & w1 & w2 & Hg & Ha & Hr)]];
    [done | done |].
  destruct (AddMessageToThread_effect _ _ _ _ _ _ _ Ha) as (_ & _ & Ha').
  destruct (RunAssistant_effect _ _ _ _ _ _ _ Hr) as (_ & _ & Hr').
  rewrite (interactions_pushed _ _ _ _ Hr'), (interactions_pushed _ _ _ _ Ha').
  rewrite (interactions_GetOrCreateThreadManager _ _ _ _ _ _ Hg).
  by rewrite <- app_assoc.
Qed.

Lemma count_app p l1 l2 : count p (l1 ++ l2) = count p l1 + count p l2.
Proof. unfold count. by rewrite filter_app, length_app. Qed.

Lemma count_Forall (p : Event -> bool) (P : Event -> Prop) evs :
  (forall ev, P ev -> p ev = false) -> Forall P evs -> count p evs = 0.
Proof.
  intros HP. unfold count. induction 1 as [|ev evs Hev _ IH]; [done|].
  rewrite filter_cons. rewrite (HP _ Hev). by case_decide.
Qed.

Lemma count_steps (p : Event -> bool) (P : Event -> Prop) w w' :
  (forall ev, P ev -> p ev = false) -> steps P w w' ->
  count p (events_since w w') = 0.
Proof.
  intros HP Hs. eapply count_Forall; [exact HP|]. by apply steps_events_since.
Qed.

Lemma events_since_split P Q w1 w2 w3 :
  steps P w1 w2 -> steps Q w2 w3 ->
  events_since w1 w3 = events_since w1 w2 ++ events_since w2 w3.
Proof.
  intros (e1 & H1 & _) (e2 & H2 & _). apply events_since_steps; eauto.
Qed.

Lemma footprint_post_no_creation tm role content videoID ev :
  footprint_post tm role content videoID ev ->
  is_create_thread ev = false /\ is_create_assistant ev = false.
Proof. by destruct ev as [[]| | | |]. Qed.

Lemma footprint_run_no_creation tm assistantID videoID ev :
  footprint_run tm assistantID videoID ev ->
  is_create_thread ev = false /\ is_create_assistant ev = false.
Proof. by intros [H|H]; destruct ev as [[]| | | |]. Qed.

Lemma footprint_thread_no_assistant videoID ev :
  footprint_thread videoID ev -> is_create_assistant ev = false.
Proof. by destruct ev as [[]| | | |]. Qed.

Lemma pushed_lookup_ne w videoID value key :
  key <> interactions_key videoID -> pushed w videoID value !! key = redis w !! key.
Proof. intros H. unfold pushed. by rewrite lookup_insert_ne. Qed.

(** A lookup that finds the key set answers without any call to the
    provider, and with the stored identifier when the store answers. *)
Lemma GetOrCreateThreadManager_hit videoID assistantID w t e :
  redis w !! thread_key videoID = Some (RString t e) ->
  redis_fault env (trace w) = None ->
  GetOrCreateThreadManager env videoID assistantID w
  = (Ok {| ThreadID := t |},
     set_threadManagers (<[assistantID := {| ThreadID := t |}]> (threadManagers w))
       (record (RedisGet (thread_key videoID) (Ok t)) w)).
Proof.
  intros Hk Hf. unfold GetOrCreateThreadManager, thread_key in *. unfold_go.
  by rewrite Hf, Hk.
Qed.

Lemma GetOrCreateThreadManager_count videoID assistantID w r w' :
  GetOrCreateThreadManager env videoID assistantID w = (r, w') ->
  count is_create_thread (events_since w w') <= 1
  /\ (is_Some (redis w !! thread_key videoID) ->
      count is_create_thread (events_since w w') = 0).
Proof.
  unfold GetOrCreateThreadManager, createThread, thread_key. unfold_go.
  intros H.
  destruct (redis_fault env (trace w)) as [f|] eqn:Hf.
  { rewrite fault_text_not_Nil in H. simplify_eq.
    rewrite events_since_record. by split; [compute; lia|]. }
  destruct (redis w !! ("thread_id:" +:+ videoID)) as [[t e|l]|] eqn:Hk;
    simpl in H.
  - simplify_eq. unfold events_since; simpl. rewrite drop_app_length.
    by split; [compute; lia|].
  - simplify_eq. rewrite events_since_record. by split; [compute; lia|].
  - split; [|by intros [? ?]].
    break_match; unfold events_since; simpl;
      rewrite <- ?app_assoc, drop_app_length; compute; lia.
Qed.

Lemma CreateAssistantWithMetadata_effect initReq w r w' :
  CreateAssistantWithMetadata env initReq w = (r, w') ->
  steps (footprint_assistant initReq) w w'
  /\ threadManagers w' = threadManagers w
  /\ redis w' =
       match r with
       | Ok id => <[assistant_key (VideoID initReq) := RString id (24 * Hour)]> (redis w)
       | Err _ => redis w
       end.
Proof.
  unfold CreateAssistantWithMetadata, assistant_key. unfold_go.
  intros H. break_match; (split; [solve_steps | done]).
Qed.

Lemma CreateAssistantWithMetadata_count initReq w r w' :
  CreateAssistantWithMetadata env initReq w = (r, w') ->
  count is_create_assistant (events_since w w') <= 1
  /\ count is_create_thread (events_since w w') = 0.
Proof.
  unfold CreateAssistantWithMetadata. unfold_go.
  intros H. break_match; unfold events_since; simpl;
    rewrite <- ?app_assoc, ?drop_app_length, ?drop_all; compute; lia.
Qed.

(** One question: no context is created, at most one thread is, none when
    the key of the thread is set, and the key is set after a question that
    got its thread. *)
Lemma AskAssistantQuestion_threads fuel videoID assistantID question w r w' :
  AskAssistantQuestion env fuel videoID assistantID question w = Some (r, w') ->
  steps (fun _ => True) w w'
  /\ count is_create_assistant (events_since w w') = 0
  /\ count is_create_thread (events_since w w') <= 1
  /\ (is_Some (redis w !! thread_key videoID) ->
      count is_create_thread (events_since w w') = 0
      /\ is_Some (redis w' !! thread_key videoID))
  /\ (is_Ok r = true -> is_Some (redis w' !! thread_key videoID)).
Proof.
  intros H.
  assert (Hthread : forall tm w1,
    GetOrCreateThreadManager env videoID assistantID w = (Ok tm, w1) ->
    is_Some (redis w1 !! thread_key videoID)).
  { intros tm w1 Hg.
    destruct (GetOrCreateThreadManager_effect _ _ _ _ _ Hg) as [_ ->].
    destruct (redis w !! thread_key videoID) eqn:Hk; [by rewrite Hk|].
    by rewrite lookup_insert_eq. }
  destruct (AskAssistantQuestion_inv _ _ _ _ _ _ _ H)
    as [(e & Hg & ->) | [(tm & w1 & e & Hg & Ha & ->) | (tm & w1 & w2 & Hg & Ha & Hr)]].
  - destruct (GetOrCreateThreadManager_effect _ _ _ _ _ Hg) as [Hs Hredis].
    destruct (GetOrCreateThreadManager_count _ _ _ _ _ Hg) as [Hc1 Hc0].
    split; [by eapply steps_impl; [|exact Hs]|].
    split; [eapply count_steps; [apply footprint_thread_no_assistant | exact Hs]|].
    split; [done|]. split; [|done].
    intros Hk. split; [by apply Hc0|]. by rewrite Hredis.
  - destruct (GetOrCreateThreadManager_effect _ _ _ _ _ Hg) as [Hs _].
    destruct (GetOrCreateThreadManager_count _ _ _ _ _ Hg) as [Hc1 Hc0].
    destruct (AddMessageToThread_effect _ _ _ _ _ _ _ Ha) as (Hs2 & _ & Hredis2).
    rewrite (events_since_split _ _ _ _ _ Hs Hs2), !count_app.
    rewrite (count_steps is_create_thread _ _ _
               (fun ev F => proj1 (footprint_post_no_creation _ _ _ _ ev F)) Hs2).
    rewrite (count_steps is_create_assistant _ _ _
               (fun ev F => proj2 (footprint_post_no_creation _ _ _ _ ev F)) Hs2).
    rewrite (count_steps is_create_assistant _ _ _
               (footprint_thread_no_assistant _) Hs).
    rewrite !Nat.add_0_r.
    split; [eapply steps_trans; eapply steps_impl; eauto|].
    split; [done|]. split; [done|]. split; [|done].
    intros Hk. split; [by apply Hc0|].
    rewrite Hredis2. by eapply Hthread.
  - destruct (GetOrCreateThreadManager_effect _ _ _ _ _ Hg) as [Hs _].
    destruct (GetOrCreateThreadManager_count _ _ _ _ _ Hg) as [Hc1 Hc0].
    destruct (AddMessageToThread_effect _ _ _ _ _ _ _ Ha) as (Hs2 & _ & Hredis2).
    destruct (RunAssistant_effect _ _ _ _ _ _ _ Hr) as (Hs3 & _ & Hredis3).
    assert (Hs23 : steps (fun _ => True) w1 w').
    { eapply steps_trans; eapply steps_impl; eauto. }
    rewrite (events_since_split _ _ _ _ _ Hs Hs23).
    rewrite (events_since_split _ _ _ _ _ Hs2 Hs3), !count_app.
    rewrite (count_steps is_create_thread _ _ _
               (fun ev F => proj1 (footprint_post_no_creation _ _ _ _ ev F)) Hs2).
    rewrite (count_steps is_create_assistant _ _ _
               (fun ev F => proj2 (footprint_post_no_creation _ _ _ _ ev F)) Hs2).
    rewrite (count_steps is_create_thread _ _ _
               (fun ev F => proj1 (footprint_run_no_creation _ _ _ ev F)) Hs3).
    rewrite (count_steps is_create_assistant _ _ _
               (fun ev F => proj2 (footprint_run_no_creation _ _ _ ev F)) Hs3).
    rewrite (count_steps is_create_assistant _ _ _
               (footprint_thread_no_assistant _) Hs).
    rewrite !Nat.add_0_r.
    split; [eapply steps_trans; [eapply steps_impl; [|exact Hs]; done | exact Hs23]|].
    split; [done|]. split; [done|].
    assert (Hsame : redis w' !! thread_key videoID = redis w1 !! thread_key videoID).
    { assert (redis w2 !! thread_key videoID = redis w1 !! thread_key videoID) as <-.
      { rewrite Hredis2.
        apply pushed_lookup_ne, thread_key_not_interactions. }
      rewrite Hredis3. destruct r; [|done].
      apply pushed_lookup_ne, thread_key_not_interactions. }
    split.
    + intros Hk. split; [by apply Hc0|]. rewrite Hsame. by eapply Hthread.
    + intros _. rewrite Hsame. by eapply Hthread.
Qed.

(** Questions asked in a row, up to the first that fails. *)
Lemma ask_all_threads fuel videoID assistantID questions w r w' :
  ask_all env fuel videoID assistantID questions w = Some (r, w') ->
  steps (fun _ => True) w w'
  /\ count is_create_assistant (events_since w w') = 0
  /\ count is_create_thread (events_since w w') <= 1
  /\ (is_Some (redis w !! thread_key videoID) ->
      count is_create_thread (events_since w w') = 0).
Proof.
  revert w r w'.
  induction questions as [|question questions IH]; intros w r w' H; simpl in H.
  - simplify_eq. unfold events_since. rewrite drop_all.
    split; [apply steps_refl|]. by split; [|split; [compute; lia|]].
  - destruct (AskAssistantQuestion env fuel videoID assistantID question w)
      as [[[reply|e] w1]|] eqn:Hq; [| |done].
    + destruct (AskAssistantQuestion_threads _ _ _ _ _ _ _ Hq)
        as (Hs1 & Ha1 & Ht1 & Hk1 & Hok1).
      destruct (ask_all env fuel videoID assistantID questions w1)
        as [[r2 w2]|] eqn:Hrest; [|done].
      assert (w' = w2) as -> by (by destruct r2; simplify_eq).
      destruct (IH _ _ _ Hrest) as (Hs2 & Ha2 & _ & Hk2).
      rewrite (events_since_split _ _ _ _ _ Hs1 Hs2), !count_app.
      rewrite Ha1, Ha2, (Hk2 (Hok1 eq_refl)), !Nat.add_0_r.
      split; [by eapply steps_trans|]. split; [done|]. split; [done|].
      intros Hk. by apply Hk1.
    + simplify_eq.
      destruct (AskAssistantQuestion_threads _ _ _ _ _ _ _ Hq)
        as (Hs1 & Ha1 & Ht1 & Hk1 & _).
      split; [done|]. split; [done|]. split; [done|].
      intros Hk. by apply Hk1.
Qed.

Lemma append_nil_r (s : string) : s +:+ "" = s.
Proof.
  induction s as [|c s IH]; [done|].
  change (String c (s +:+ "") = String c s). by f_equal.
Qed.

Lemma append_assoc (a b c : string) : (a +:+ b) +:+ c = a +:+ (b +:+ c).
Proof.
  induction a as [|x a IH]; [done|].
  change (String x ((a +:+ b) +:+ c) = String x (a +:+ (b +:+ c))). by f_equal.
Qed.

(** The two loops of the source compute the reply of the specification. *)
Lemma collect_text_foldr fragments acc :
  collect_text fragments acc = acc +:+ foldr String.append "" (omap text_of fragments).
Proof.
  revert acc. induction fragments as [|fragment rest IH]; intros acc; simpl.
  - by rewrite append_nil_r.
  - rewrite IH. unfold text_of at 2.
    destruct (String.eqb (Type' fragment) "text"); [|done].
    destruct (Text fragment) as [t|]; simpl; [|done].
    by rewrite append_assoc.
Qed.

Lemma first_assistant_spec messages :
  first_assistant messages = turn_text <$> first_listed_assistant messages.
Proof.
  unfold first_listed_assistant, turn_text, text_fragments, is_assistant.
  induction messages as [|msg rest IH]; simpl; [done|].
  rewrite filter_cons. destruct (String.eqb (Role msg) "assistant") eqn:Hrole.
  - rewrite decide_True by done. simpl. by rewrite collect_text_foldr.
  - rewrite decide_False by done. exact IH.
Qed.

Lemma GetRunStatus_Ok tm runID w status w' :
  GetRunStatus env tm runID w = (Ok status, w') ->
  exists resp,
    w' = record (Http (GetRun (ThreadID tm) runID) (Reply resp)) w
    /\ StatusCode resp = StatusOK
    /\ json_status env resp = Ok status.
Proof.
  unfold GetRunStatus. unfold_go. intros H.
  destruct (url_error env _); [done|].
  destruct (send env (trace w) _) as [e|resp]; [done|].
  destruct (negb (StatusCode resp =? StatusOK)%Z) eqn:Hcode; [done|].
  destruct (json_status env resp) eqn:Hjson; [|done].
  simplify_eq. exists resp. split; [done|]. split; [|done].
  by apply Z.eqb_eq, negb_false_iff.
Qed.

Lemma on_completed_Ok tm videoID w reply w' :
  on_completed env tm videoID w = (Ok reply, w') ->
  exists resp messages,
    In (Http (GetMessages (ThreadID tm)) (Reply resp)) (events_since w w')
    /\ json_messages env (Body resp) = Ok messages
    /\ first_assistant messages = Some reply.
Proof.
  unfold on_completed, GetThreadMessages. unfold_go. intros H. break_match;
    (eexists _, _; split; [|split; [eassumption|done]]);
    unfold events_since; simpl; rewrite <- app_assoc, drop_app_length;
    simpl; eauto.
Qed.

(** A reply comes out of the loop only after a status request was answered
    "completed", and it is read off the messages listed then. *)
Lemma poll_Ok fuel tm runID videoID w reply w' :
  poll env fuel tm runID videoID w = Some (Ok reply, w') ->
  exists status_resp messages_resp messages,
    In (Http (GetRun (ThreadID tm) runID) (Reply status_resp)) (events_since w w')
    /\ StatusCode status_resp = StatusOK
    /\ json_status env status_resp = Ok "completed"
    /\ In (Http (GetMessages (ThreadID tm)) (Reply messages_resp)) (events_since w w')
    /\ json_messages env (Body messages_resp) = Ok messages
    /\ first_assistant messages = Some reply.
Proof.
  revert w. induction fuel as [|fuel IH]; intros w H; [done|].
  simpl in H.
  destruct (GetRunStatus env tm runID _) as [[status|e] w1] eqn:Hs; [|done].
  destruct (GetRunStatus_effect tm runID videoID _ _ _ Hs) as (Hs1 & _).
  assert (Hw : steps (footprint_poll tm videoID) w w1).
  { eapply steps_trans; [|exact Hs1]. by apply steps_record. }
  destruct (String.eqb status "completed") eqn:Hstatus.
  - apply String.eqb_eq in Hstatus. subst status.
    injection H as H.
    destruct (on_completed_effect tm videoID _ _ _ H) as (Hs2 & _).
    destruct (on_completed_Ok _ _ _ _ _ H) as (mr & ms & H3 & H4 & H5).
    destruct (GetRunStatus_Ok _ _ _ _ _ Hs) as (sr & Hw1 & Hcode & H2).
    exists sr, mr, ms. rewrite (events_since_split _ _ _ _ _ Hw Hs2).
    split; [|split; [done|split; [done|split; [|done]]]];
      apply in_or_app; [left | by right].
    rewrite Hw1. unfold events_since. simpl.
    rewrite <- app_assoc, drop_app_length. simpl. eauto.
  - destruct (IH _ H) as (sr & mr & ms & H1 & Hcode & H2 & H3 & H4 & H5).
    destruct (poll_effect _ _ _ _ _ _ _ H) as (Hs2 & _).
    exists sr, mr, ms. rewrite (events_since_split _ _ _ _ _ Hw Hs2).
    repeat split; try done; apply in_or_app; by right.
Qed.

(** The ways the start of a run ends. *)
Lemma start_run_cases tm assistantID w r w' :
  start_run env tm assistantID w = (r, w') ->
  (w' = w /\ is_Ok r = false)
  \/ exists ans,
       w' = record (Http (PostRuns (ThreadID tm) assistantID) ans) w
       /\ match ans with
          | SendError e => r = Err ("failed to send request: " +:+ e)
          | Reply resp =>
              if negb (StatusCode resp =? StatusOK)%Z
              then r = Err ("failed to run assistant: " +:+ Body resp)
              else r = match json_run env resp with
                       | Ok runResp => Ok runResp
                       | Err e => Err ("failed to decode response: " +:+ e)
                       end
          end.
Proof.
  unfold start_run. unfold_go. intros H.
  destruct (url_error env _) as [e|]; [left; by simplify_eq|].
  right. destruct (send env (trace w) _) as [e|resp] eqn:Hsend.
  - simplify_eq. by eexists (SendError e).
  - exists (Reply resp). destruct (negb (StatusCode resp =? StatusOK)%Z) eqn:Hc.
    + by simplify_eq.
    + by destruct (json_run env resp) as [runResp|e] eqn:Hj; simplify_eq.
Qed.

(** A run whose start the provider answered with a status other than 200
    ends with the error that carries the body of that answer, and leaves
    the store as it was. *)
Lemma RunAssistant_rejected fuel tm assistantID videoID w r w' t a resp :
  RunAssistant env fuel tm assistantID videoID w = Some (r, w') ->
  In (Http (PostRuns t a) (Reply resp)) (events_since w w') ->
  StatusCode resp <> StatusOK ->
  r = Err ("failed to run assistant: " +:+ Body resp) /\ redis w' = redis w.
Proof.
  unfold RunAssistant. intros H Hin Hcode.
  destruct (start_run env tm assistantID w) as [r1 w1] eqn:Hs.
  destruct (start_run_cases _ _ _ _ _ Hs) as [[-> Hr1] | (ans & -> & Hans)].
  - destruct r1; [done|]. simplify_eq.
    unfold events_since in Hin. by rewrite drop_all in Hin.
  - assert (Hnot : negb (StatusCode resp =? StatusOK)%Z = true).
    { apply negb_true_iff, Z.eqb_neq, Hcode. }
    destruct r1 as [runResp|e].
    + destruct (poll_effect _ _ _ _ _ _ _ H) as (Hs2 & _).
      assert (Hs1 : steps (fun _ => True) w
                      (record (Http (PostRuns (ThreadID tm) assistantID) ans) w))
        by (by apply steps_record).
      rewrite (events_since_split _ _ _ _ _ Hs1 Hs2) in Hin.
      rewrite events_since_record in Hin.
      apply in_app_or in Hin as [[Heq|[]]|Hin].
      * simplify_eq. by rewrite Hnot in Hans.
      * apply steps_events_since in Hs2.
        rewrite Forall_forall in Hs2.
        apply list_elem_of_In in Hin. apply Hs2 in Hin. destruct Hin.
    + simplify_eq. rewrite events_since_record in Hin.
      destruct Hin as [Heq|[]]. simplify_eq. rewrite Hnot in Hans. by simplify_eq.
Qed.

Lemma steps_In P w w' ev : steps P w w' -> In ev (events_since w w') -> P ev.
Proof.
  intros Hs Hin. apply steps_events_since in Hs.
  rewrite Forall_forall in Hs. by apply Hs, list_elem_of_In.
Qed.

Lemma poll_never_completed fuel tm runID videoID w :
  (forall w0, exists status w1,
      GetRunStatus env tm runID w0 = (Ok status, w1)
      /\ String.eqb status "completed" = false) ->
  poll env fuel tm runID videoID w = None.
Proof.
  intros Hstatus. revert w. induction fuel as [|fuel IH]; intros w; [done|].
  simpl. destruct (Hstatus (record (Sleep (2 * Second)) w)) as (status & w1 & -> & ->).
  apply IH.
Qed.

(** More rounds do not change what the loop returns. *)
Lemma poll_more_fuel fuel extra tm runID videoID w out :
  poll env fuel tm runID videoID w = Some out ->
  poll env (fuel + extra) tm runID videoID w = Some out.
Proof.
  revert w. induction fuel as [|fuel IH]; intros w H; [done|].
  simpl in *. destruct (GetRunStatus env tm runID _) as [[status|e] w1]; [|done].
  destruct (String.eqb status "completed"); [done|]. by apply IH.
Qed.

(** ** When a result is produced

    The loop returns as soon as a round is answered "completed": with any
    bound above the number of rounds answered otherwise, the result is the
    one of [on_completed] in the world of that answer. *)
Lemma waits_effect tm runID videoID k w w' :
  waits env tm runID k w w' ->
  steps (footprint_poll tm videoID) w w' /\ untouched w w'.
Proof.
  induction 1 as [w|k w status w1 w' Hs _ _ [IHs [IHr IHm]]].
  - split; [apply steps_refl | done].
  - destruct (GetRunStatus_effect tm runID videoID _ _ _ Hs) as (Hs1 & Hr1 & Hm1).
    split.
    + apply steps_trans with w1; [|done].
      apply steps_trans with (record (Sleep (2 * Second)) w); [|done].
      by apply steps_record.
    + split; [by rewrite IHr, Hr1 | by rewrite IHm, Hm1].
Qed.

Lemma completes_effect tm runID videoID k w w' :
  completes env tm runID k w w' ->
  steps (footprint_poll tm videoID) w w' /\ untouched w w'.
Proof.
  intros (w1 & Hw & Hs).
  destruct (waits_effect tm runID videoID _ _ _ Hw) as (Hs1 & Hr1 & Hm1).
  destruct (GetRunStatus_effect tm runID videoID _ _ _ Hs) as (Hs2 & Hr2 & Hm2).
  split.
  - apply steps_trans with w1; [done|].
    apply steps_trans with (record (Sleep (2 * Second)) w1); [|done].
    by apply steps_record.
  - split; [by rewrite Hr2; simpl; rewrite Hr1 | by rewrite Hm2; simpl; rewrite Hm1].
Qed.

Lemma poll_completes fuel tm runID videoID k w w' :
  completes env tm runID k w w' ->
  k < fuel ->
  poll env fuel tm runID videoID w = Some (on_completed env tm videoID w').
Proof.
  intros (w1 & Hw & Hc). revert fuel.
  induction Hw as [w|k w status w0 w1 Hs Hne Hw IH]; intros fuel Hk;
    (destruct fuel as [|fuel]; [lia|]); simpl.
  - by rewrite Hc.
  - rewrite Hs, Hne. apply IH; [done | lia].
Qed.

Lemma RunAssistant_completes fuel tm assistantID videoID w runResp w0 k w' :
  start_run env tm assistantID w = (Ok runResp, w0) ->
  completes env tm (run_ID runResp) k w0 w' ->
  k < fuel ->
  RunAssistant env fuel tm assistantID videoID w
  = Some (on_completed env tm videoID w').
Proof.
  intros Hs Hc Hk. unfold RunAssistant. rewrite Hs. by apply poll_completes with k.
Qed.

(** What [on_completed] returns, from the messages it reads. *)
Lemma on_completed_reply tm videoID w messages w1 m w2 :
  GetThreadMessages env tm w = (Ok messages, w1) ->
  first_listed_assistant messages = Some m ->
  redis_RPush env (interactions_key videoID) ("Assistant: " +:+ turn_text m) w1
  = (Ok tt, w2) ->
  on_completed env tm videoID w = (Ok (turn_text m), w2).
Proof.
  intros Hm Hf Hp. unfold on_completed, try, ret.
  rewrite Hm, first_assistant_spec, Hf. simpl.
  fold (interactions_key videoID). by rewrite Hp.
Qed.

Lemma on_completed_no_reply tm videoID w messages w1 :
  GetThreadMessages env tm w = (Ok messages, w1) ->
  first_assistant messages = None ->
  on_completed env tm videoID w = (Err "no assistant message found", w1).
Proof. intros Hm Hf. unfold on_completed, try, fail. by rewrite Hm, Hf. Qed.

(** The first turn listed newest first is the last turn made. *)
Lemma first_assistant_newest_first thread :
  first_assistant (listed NewestFirst thread) = turn_text <$> most_recent_assistant thread.
Proof.
  rewrite first_assistant_spec.
  unfold first_listed_assistant, most_recent_assistant. simpl.
  by rewrite filter_reverse, head_reverse.
Qed.

(** A start that the provider answers with a status other than 200. *)
Lemma start_run_refused tm assistantID w resp :
  url_error env (Request_url (PostRuns (ThreadID tm) assistantID)) = None ->
  send env (trace w) (PostRuns (ThreadID tm) assistantID) = Reply resp ->
  StatusCode resp <> StatusOK ->
  start_run env tm assistantID w
  = (Err ("failed to run assistant: " +:+ Body resp),
     record (Http (PostRuns (ThreadID tm) assistantID) (Reply resp)) w).
Proof.
  intros Hurl Hsend Hcode. unfold start_run. unfold_go.
  rewrite Hurl, Hsend.
  apply Z.eqb_neq in Hcode. by rewrite Hcode.
Qed.

Lemma AskAssistantQuestion_more_fuel fuel extra videoID assistantID question w out :
  AskAssistantQuestion env fuel videoID assistantID question w = Some out ->
  AskAssistantQuestion env (fuel + extra) videoID assistantID question w = Some out.
Proof.
  unfold AskAssistantQuestion, RunAssistant.
  destruct (GetOrCreateThreadManager env videoID assistantID w) as [[tm|e] w1]; [|done].
  destruct (AddMessageToThread env tm "user" question videoID w1) as [[[]|e] w2]; [|done].
  destruct (start_run env tm assistantID w2) as [[runResp|e] w3]; [|done].
  apply poll_more_fuel.
Qed.

End Effects.

(** ** The claims *)

(** C1, on the failing input.  With a provider that starts the job and then
    answers every status request with "failed", [RunAssistant] never
    returns: however many rounds the loop is given, it is still polling.  No
    error for the failed job is reported, and no reply is returned
    either. *)
Theorem failed_job_is_polled_forever fuel tm assistantID videoID w :
  RunAssistant Scenario.failed_job fuel tm assistantID videoID w = None.
Proof.
  unfold RunAssistant, start_run. unfold_go. simpl.
  apply poll_never_completed. intros w0.
  unfold GetRunStatus. unfold_go. simpl.
  eexists _, _. split; [reflexivity|].
  by destruct (Scenario.polls (trace w0)).
Qed.

(** C2. After K successful questions about one video, asked one after the
    other, the Interaction Log of the video is what it was, followed by
    question 1, reply 1, question 2, reply 2, ... in the order of the calls,
    each reply prefixed with "Assistant: "; there are as many replies as
    questions, and a log that was empty holds exactly 2K entries. *)
Theorem interaction_log_after_asks env fuel videoID assistantID questions w replies w' :
  ask_all env fuel videoID assistantID questions w = Some (Ok replies, w') ->
  length replies = length questions
  /\ interactions w' videoID = interactions w videoID ++ dialogue questions replies
  /\ (interactions w videoID = [] ->
      length (interactions w' videoID) = 2 * length questions).
Proof.
  revert w replies w'.
  assert (Hmain : forall w replies w',
    ask_all env fuel videoID assistantID questions w = Some (Ok replies, w') ->
    length replies = length questions
    /\ interactions w' videoID = interactions w videoID ++ dialogue questions replies
    /\ length (dialogue questions replies) = 2 * length questions).
  { induction questions as [|question questions IH]; intros w replies w' H; simpl in H.
    - simplify_eq. by rewrite app_nil_r.
    - destruct (AskAssistantQuestion env fuel videoID assistantID question w)
        as [[[reply|e] w1]|] eqn:Hq; [|done|done].
      destruct (ask_all env fuel videoID assistantID questions w1)
        as [[[replies'|e] w2]|] eqn:Hrest; [|done|done].
      simplify_eq. destruct (IH _ _ _ Hrest) as (Hlen & Hlog & Hd).
      split; [simpl; congruence|]. split.
      + rewrite Hlog, (AskAssistantQuestion_log _ _ _ _ _ _ _ _ Hq).
        by rewrite <- app_assoc.
      + simpl. rewrite Hd. lia. }
  intros w replies w' H. destruct (Hmain _ _ _ H) as (Hlen & Hlog & Hd).
  split; [done|]. split; [done|].
  intros Hempty. by rewrite Hlog, Hempty.
Qed.


(** C4 (amended).  The store is written under three keys only.
    [CreateAssistantWithMetadata] that succeeds sets
    [assistant_id:<VideoID>] to the new identifier with an expiry of 24
    hours; [GetOrCreateThreadManager] that succeeds after a miss sets
    [thread_id:<VideoID>] to the new identifier with an expiry of 24 hours;
    [AddMessageToThread] and [RunAssistant] that succeed replace the list
    under [interactions:<VideoID>] by itself with one entry appended, and
    no expiry; whatever fails leaves the store as it was. *)
Theorem store_keys env :
  (forall initReq w,
     let '(r, w') := CreateAssistantWithMetadata env initReq w in
     redis w' =
       match r with
       | Ok id =>
           <["assistant_id:" +:+ VideoID initReq := RString id (24 * Hour)]> (redis w)
       | Err _ => redis w
       end)
  /\ (forall videoID assistantID w,
       let '(r, w') := GetOrCreateThreadManager env videoID assistantID w in
       redis w' =
         match r, redis w !! ("thread_id:" +:+ videoID) with
         | Ok tm, None =>
             <["thread_id:" +:+ videoID := RString (ThreadID tm) (24 * Hour)]> (redis w)
         | _, _ => redis w
         end)
  /\ (forall tm role content videoID w,
       let '(r, w') := AddMessageToThread env tm role content videoID w in
       redis w' =
         match r with
         | Ok _ =>
             <["interactions:" +:+ videoID :=
                 RList (interactions w videoID ++ [content])]> (redis w)
         | Err _ => redis w
         end)
  /\ (forall fuel tm assistantID videoID w r w',
       RunAssistant env fuel tm assistantID videoID w = Some (r, w') ->
       redis w' =
         match r with
         | Ok reply =>
             <["interactions:" +:+ videoID :=
                 RList (interactions w videoID ++ ["Assistant: " +:+ reply])]> (redis w)
         | Err _ => redis w
         end).
Proof.
  split; [|split; [|split]].
  - intros initReq w.
    destruct (CreateAssistantWithMetadata env initReq w) as [r w'] eqn:H.
    by destruct (CreateAssistantWithMetadata_effect _ _ _ _ _ H) as (_ & _ & ?).
  - intros videoID assistantID w.
    destruct (GetOrCreateThreadManager env videoID assistantID w) as [r w'] eqn:H.
    by destruct (GetOrCreateThreadManager_effect _ _ _ _ _ _ H) as (_ & ?).
  - intros tm role content videoID w.
    destruct (AddMessageToThread env tm role content videoID w) as [r w'] eqn:H.
    by destruct (AddMessageToThread_effect _ _ _ _ _ _ _ _ H) as (_ & _ & ?).
  - intros fuel tm assistantID videoID w r w' H.
    by destruct (RunAssistant_effect _ _ _ _ _ _ _ _ H) as (_ & _ & ?).
Qed.


(** C6.  A body that does not decode is answered 400 by both handlers, and
    the world is as it was: no service was called, no request sent to the
    provider, no operation sent to the store. *)
Theorem malformed_body_is_rejected
  decode_InitRequest decode_QuestionRequest CreateGPTSession FetchGPTResponse body w :
  (is_Ok (decode_InitRequest body) = false ->
   Handlers.InitializeGPTSession decode_InitRequest CreateGPTSession body w
   = Some (Handlers.http_Error "Invalid request payload" 400, w))
  /\ (is_Ok (decode_QuestionRequest body) = false ->
      Handlers.AskGPTQuestion decode_QuestionRequest FetchGPTResponse body w
      = Some (Handlers.RespondWithError 400 "Invalid request payload", w))
  /\ Handlers.Code (Handlers.http_Error "Invalid request payload" 400) = 400%Z
  /\ Handlers.Code (Handlers.RespondWithError 400 "Invalid request payload") = 400%Z.
Proof.
  unfold Handlers.InitializeGPTSession, Handlers.AskGPTQuestion.
  split; [|split; [|done]]; intros Hdec.
  - by destruct (decode_InitRequest body).
  - by destruct (decode_QuestionRequest body).
Qed.

(** C7.  When the provider answers the request that starts the job with a
    status other than 200, the question fails with an error that carries
    the raw body of that answer, and the Interaction Log has gained the
    question and nothing else: no assistant entry.  The error is returned
    whatever the bound of the loop, which is not entered; and whenever a
    question ends after such an answer, it has ended in this way. *)
Theorem start_job_rejected env videoID assistantID question :
  (forall w tm w1 w2 resp,
     GetOrCreateThreadManager env videoID assistantID w = (Ok tm, w1) ->
     AddMessageToThread env tm "user" question videoID w1 = (Ok tt, w2) ->
     url_error env (Request_url (PostRuns (ThreadID tm) assistantID)) = None ->
     send env (trace w2) (PostRuns (ThreadID tm) assistantID) = Reply resp ->
     StatusCode resp <> StatusOK ->
     let w' := record (Http (PostRuns (ThreadID tm) assistantID) (Reply resp)) w2 in
     (forall fuel,
        AskAssistantQuestion env fuel videoID assistantID question w
        = Some (Err ("failed to run assistant: " +:+ Body resp), w'))
     /\ interactions w' videoID = interactions w videoID ++ [question])
  /\ (forall fuel w r w' t a resp,
        AskAssistantQuestion env fuel videoID assistantID question w = Some (r, w') ->
        In (Http (PostRuns t a) (Reply resp)) (events_since w w') ->
        StatusCode resp <> StatusOK ->
        r = Err ("failed to run assistant: " +:+ Body resp)
        /\ interactions w' videoID = interactions w videoID ++ [question]).
Proof.
  split.
  { intros w tm w1 w2 resp Hg Ha Hurl Hsend Hcode w'. split.
    - intros fuel. unfold AskAssistantQuestion, RunAssistant.
      by rewrite Hg, Ha, (start_run_refused env _ _ _ _ Hurl Hsend Hcode).
    - destruct (AddMessageToThread_effect _ _ _ _ _ _ _ _ Ha) as (_ & _ & Hredis2).
      assert (Hredis3 : redis w' = redis w2) by done.
      rewrite (interactions_same _ _ _ Hredis3), (interactions_pushed _ _ _ _ Hredis2).
      by rewrite (interactions_GetOrCreateThreadManager _ _ _ _ _ _ _ Hg). }
  intros fuel w r w' t a resp H Hin Hcode.
  destruct (AskAssistantQuestion_inv _ _ _ _ _ _ _ _ H)
    as [(e & Hg & ->) | [(tm & w1 & e & Hg & Ha & ->) | (tm & w1 & w2 & Hg & Ha & Hr)]].
  - destruct (GetOrCreateThreadManager_effect _ _ _ _ _ _ Hg) as [Hs _].
    destruct (steps_In _ _ _ _ Hs Hin).
  - destruct (GetOrCreateThreadManager_effect _ _ _ _ _ _ Hg) as [Hs _].
    destruct (AddMessageToThread_effect _ _ _ _ _ _ _ _ Ha) as (Hs2 & _).
    rewrite (events_since_split _ _ _ _ _ Hs Hs2) in Hin.
    apply in_app_or in Hin as [Hin|Hin].
    + destruct (steps_In _ _ _ _ Hs Hin).
    + destruct (steps_In _ _ _ _ Hs2 Hin).
  - destruct (GetOrCreateThreadManager_effect _ _ _ _ _ _ Hg) as [Hs _].
    destruct (AddMessageToThread_effect _ _ _ _ _ _ _ _ Ha) as (Hs2 & _ & Hredis2).
    destruct (RunAssistant_effect _ _ _ _ _ _ _ _ Hr) as (Hs3 & _).
    assert (Hs23 : steps (fun _ => True) w1 w').
    { eapply steps_trans; eapply steps_impl; eauto. }
    rewrite (events_since_split _ _ _ _ _ Hs Hs23) in Hin.
    rewrite (events_since_split _ _ _ _ _ Hs2 Hs3) in Hin.
    apply in_app_or in Hin as [Hin|Hin]; [destruct (steps_In _ _ _ _ Hs Hin)|].
    apply in_app_or in Hin as [Hin|Hin]; [destruct (steps_In _ _ _ _ Hs2 Hin)|].
    destruct (RunAssistant_rejected _ _ _ _ _ _ _ _ _ _ _ Hr Hin Hcode) as [-> Hredis3].
    split; [done|].
    rewrite (interactions_same _ _ _ Hredis3), (interactions_pushed _ _ _ _ Hredis2).
    by rewrite (interactions_GetOrCreateThreadManager _ _ _ _ _ _ _ Hg).
Qed.

(** C8.  A write to the store that fails makes the function fail: when
    [CreateAssistantWithMetadata] or [GetOrCreateThreadManager] has created
    its object at the provider and the write of the new identifier is
    answered with an error, the function returns an error that carries the
    store's, and not the identifier. *)
Theorem lost_write_is_an_error env :
  (forall initReq w r w' key value expiration e,
     CreateAssistantWithMetadata env initReq w = (r, w') ->
     In (RedisSet key value expiration (Err e)) (events_since w w') ->
     r = Err ("failed to store assistant ID in Redis: " +:+ e)
     /\ exists resp,
         In (Http (PostAssistants (VideoID initReq) (instructions initReq)) (Reply resp))
            (events_since w w')
         /\ StatusCode resp = StatusOK /\ json_id env resp = Ok value)
  /\ (forall videoID assistantID w r w' key value expiration e,
       GetOrCreateThreadManager env videoID assistantID w = (r, w') ->
       In (RedisSet key value expiration (Err e)) (events_since w w') ->
       r = Err ("failed to store thread ID in Redis: " +:+ e)
       /\ exists resp,
           In (Http PostThreads (Reply resp)) (events_since w w')
           /\ StatusCode resp = StatusOK /\ json_id env resp = Ok value).
Proof.
  split.
  - intros initReq w r w' key value expiration e.
    unfold CreateAssistantWithMetadata. unfold_go. intros H.
    break_match; unfold events_since; simpl;
      rewrite <- ?app_assoc, ?drop_app_length, ?drop_all; simpl;
      intros Hin; repeat (destruct Hin as [Hin|Hin]; simplify_eq); try done.
    split; [done|]. eexists. split; [by left|]. split; [|done].
    by apply Z.eqb_eq, negb_false_iff.
  - intros videoID assistantID w r w' key value expiration e.
    unfold GetOrCreateThreadManager, createThread. unfold_go. intros H.
    break_match; unfold events_since; simpl;
      rewrite <- ?app_assoc, ?drop_app_length, ?drop_all; simpl;
      intros Hin; repeat (destruct Hin as [Hin|Hin]; simplify_eq); try done.
    { by rewrite fault_text_not_Nil in *. }
    split; [done|]. eexists. split; [right; by left|]. split; [|done].
    by apply Z.eqb_eq, negb_false_iff.
Qed.

(** C9.  The thread that [GetOrCreateThreadManager] returns does not depend
    on the in-process map [threadManagers]: with any other content of the
    map, the function returns the same result, leaves the same store and
    makes the same calls. *)
Theorem thread_lookup_ignores_threadManagers env videoID assistantID w m :
  (GetOrCreateThreadManager env videoID assistantID (set_threadManagers m w)).1
  = (GetOrCreateThreadManager env videoID assistantID w).1
  /\ redis (GetOrCreateThreadManager env videoID assistantID (set_threadManagers m w)).2
     = redis (GetOrCreateThreadManager env videoID assistantID w).2
  /\ trace (GetOrCreateThreadManager env videoID assistantID (set_threadManagers m w)).2
     = trace (GetOrCreateThreadManager env videoID assistantID w).2.
Proof.
  unfold GetOrCreateThreadManager, createThread. unfold_go. simpl.
  destruct (redis_fault env (trace w)) as [f|]; simpl.
  { by rewrite fault_text_not_Nil. }
  destruct (redis w !! _) as [[t e|l]|]; simpl; [done|done|].
  destruct (url_error env _); simpl; [done|].
  destruct (send env _ _) as [e|resp]; simpl; [done|].
  destruct (negb _); simpl; [done|].
  destruct (json_id env resp); simpl; [|done].
  by destruct (redis_fault env _).
Qed.

(** C10. [AddMessageToThread] writes to the Interaction Log only after the
    provider accepted the message: when the provider's answer to the post is
    a transport error or a status other than 200, the function returns an
    error, the store (and so the log of the video) is as it was, and no
    push was sent to the store. *)
Theorem AddMessageToThread_failed_post env tm role content videoID w r w' :
  AddMessageToThread env tm role content videoID w = (r, w') ->
  failed (send env (trace w) (PostMessage (ThreadID tm) role content)) = true ->
  is_Ok r = false
  /\ redis w' = redis w
  /\ interactions w' videoID = interactions w videoID
  /\ count is_RPush (events_since w w') = 0.
Proof.
  unfold AddMessageToThread, interactions, events_since, count. unfold_go.
  intros H Hfail.
  destruct (url_error env _) eqn:Hurl; simpl in *;
    [simplify_eq; by rewrite drop_all|].
  destruct (send env (trace w) _) as [e|resp] eqn:Hsend; simpl in *.
  - simplify_eq. simpl. by rewrite drop_app_length.
  - rewrite Hfail in H. simplify_eq. simpl. by rewrite drop_app_length.
Qed.

(** X1.  A reply is returned only after a status request was answered
    "completed". *)
Theorem reply_only_when_completed env fuel tm assistantID videoID w reply w' :
  RunAssistant env fuel tm assistantID videoID w = Some (Ok reply, w') ->
  exists runID resp,
    In (Http (GetRun (ThreadID tm) runID) (Reply resp)) (events_since w w')
    /\ StatusCode resp = StatusOK
    /\ json_status env resp = Ok "completed".
Proof.
  intros H. unfold RunAssistant in H.
  destruct (start_run env tm assistantID w) as [[runResp|e] w1] eqn:Hs; [|done].
  destruct (start_run_effect _ _ _ _ _ _ Hs) as (Hs1 & _).
  destruct (poll_effect _ _ _ _ _ _ _ _ H) as (Hs2 & _).
  destruct (poll_Ok _ _ _ _ _ _ _ _ H) as (resp & _ & _ & Hin & Hcode & Hj & _).
  exists (run_ID runResp), resp. split; [|done].
  rewrite (events_since_split _ _ _ _ _ Hs1 Hs2). apply in_or_app. by right.
Qed.

(** ** Further properties *)

Ltac compute_events :=
  unfold events_since; simpl;
  rewrite <- ?app_assoc, ?drop_app_length, ?drop_all; simpl.

Section Further.

Context (env : Env).

Lemma first_assistant_None messages :
  first_assistant messages = None
  <-> Forall (fun m => Role m <> "assistant") messages.
Proof.
  induction messages as [|msg rest IH]; simpl; [by split|].
  destruct (String.eqb (Role msg) "assistant") eqn:Hrole.
  - apply String.eqb_eq in Hrole. split; [done|].
    intros H. by apply Forall_cons_1 in H as [? _].
  - apply String.eqb_neq in Hrole. rewrite IH. split.
    + intros H. by constructor.
    + intros H. by apply Forall_cons_1 in H as [_ ?].
Qed.

Lemma collect_text_app f1 f2 acc :
  collect_text (f1 ++ f2) acc = collect_text f2 (collect_text f1 acc).
Proof. revert acc. induction f1 as [|f f1 IH]; intros acc; simpl; [done|]. apply IH. Qed.

End Further.

(** X3.  The reply is the text of the first message of the list whose role
    is "assistant": the messages before it that have another role are
    skipped, the messages after it are not looked at; and there is no reply
    exactly when no message of the list has the role "assistant". *)
Theorem first_assistant_position :
  (forall before m after,
     Forall (fun m' => Role m' <> "assistant") before ->
     Role m = "assistant" ->
     first_assistant (before ++ m :: after) = Some (collect_text (Content m) ""))
  /\ (forall messages,
        first_assistant messages = None
        <-> Forall (fun m => Role m <> "assistant") messages).
Proof.
  split; [|apply first_assistant_None].
  intros before m after Hbefore Hm.
  induction Hbefore as [|m' before Hm' _ IH]; simpl.
  - by rewrite Hm.
  - apply String.eqb_neq in Hm'. by rewrite Hm'.
Qed.

(** X4.  The text collected from the fragments of a message: the loop over
    two lists of fragments in a row is the loop over the second started
    with the result of the first; the text is appended to whatever was
    collected before; and fragments whose type is not "text" or whose text
    is nil add nothing, so that leaving them out changes nothing. *)
Theorem collect_text_fragments :
  (forall f1 f2 acc,
     collect_text (f1 ++ f2) acc = collect_text f2 (collect_text f1 acc))
  /\ (forall fragments acc,
        collect_text fragments acc = acc +:+ collect_text fragments "")
  /\ (forall fragments acc,
        collect_text (filter (fun f => contributes f = true) fragments) acc
        = collect_text fragments acc)
  /\ (forall fragments acc,
        Forall (fun f => contributes f = false) fragments ->
        collect_text fragments acc = acc).
Proof.
  split; [apply collect_text_app|]. split; [|split].
  - intros fragments acc. by rewrite !collect_text_foldr.
  - intros fragments. induction fragments as [|f rest IH]; intros acc; [done|].
    rewrite filter_cons.
    destruct (decide (contributes f = true)) as [Hc|Hc]; simpl;
      unfold contributes in Hc;
      destruct (String.eqb (Type' f) "text"), (Text f) as [t|];
      simpl in *; try done; apply IH.
  - intros fragments acc H. revert acc.
    induction H as [|f rest Hf _ IH]; intros acc; simpl; [done|].
    unfold contributes in Hf.
    destruct (String.eqb (Type' f) "text"), (Text f); simpl in *;
      try done; apply IH.
Qed.

(** X5.  An error of the lookup of the thread key other than "key not set"
    is not taken for a miss: [GetOrCreateThreadManager] returns it, wrapped,
    and has made no call but the lookup; no thread is created, nothing is
    written, and the in-process map is left alone. *)
Theorem lookup_error_creates_nothing env videoID assistantID w r w' key e :
  GetOrCreateThreadManager env videoID assistantID w = (r, w') ->
  In (RedisGet key (Err e)) (events_since w w') ->
  e <> "redis: nil" ->
  r = Err ("failed to retrieve thread ID from Redis: " +:+ e)
  /\ events_since w w' = [RedisGet (thread_key videoID) (Err e)]
  /\ untouched w w'.
Proof.
  unfold GetOrCreateThreadManager, createThread, thread_key, untouched. unfold_go.
  intros H Hin He.
  assert (Hneq : String.eqb e "redis: nil" = false) by by apply String.eqb_neq.
  destruct (redis_fault env (trace w)) as [f|] eqn:Hf.
  { rewrite fault_text_not_Nil in H. simplify_eq. revert Hin. compute_events.
    intros [Hin|[]]. by simplify_eq. }
  destruct (redis w !! ("thread_id:" +:+ videoID)) as [[t ex|l]|] eqn:Hk;
    simpl in H.
  - simplify_eq. revert Hin. compute_events. by intros [Hin|[]].
  - simplify_eq. revert Hin. compute_events. intros [Hin|[]]. by simplify_eq.
  - exfalso. revert Hin. break_match; compute_events; intros Hin;
      repeat (destruct Hin as [Hin|Hin]; simplify_eq); done.
Qed.

(** X6.  What a successful creation has done.  [CreateAssistantWithMetadata]
    that returns an identifier has made exactly two calls: the request to
    the provider, answered 200 with that identifier, and the write of it
    under the key of the video, which the store accepted.
    [GetOrCreateThreadManager] that returns a thread after a miss has made
    exactly three: the lookup, the creation of the thread, answered 200
    with the identifier it returns, and the write of it. *)
Theorem creation_success_trace env :
  (forall initReq w id w',
     CreateAssistantWithMetadata env initReq w = (Ok id, w') ->
     exists resp,
       events_since w w'
       = [Http (PostAssistants (VideoID initReq) (instructions initReq)) (Reply resp);
          RedisSet (assistant_key (VideoID initReq)) id (24 * Hour) (Ok tt)]
       /\ StatusCode resp = StatusOK
       /\ json_id env resp = Ok id
       /\ redis w' !! assistant_key (VideoID initReq) = Some (RString id (24 * Hour)))
  /\ (forall videoID assistantID w tm w',
        redis w !! thread_key videoID = None ->
        GetOrCreateThreadManager env videoID assistantID w = (Ok tm, w') ->
        exists resp,
          events_since w w'
          = [RedisGet (thread_key videoID) (Err redis_Nil);
             Http PostThreads (Reply resp);
             RedisSet (thread_key videoID) (ThreadID tm) (24 * Hour) (Ok tt)]
          /\ StatusCode resp = StatusOK
          /\ json_id env resp = Ok (ThreadID tm)
          /\ redis w' !! thread_key videoID
             = Some (RString (ThreadID tm) (24 * Hour))).
Proof.
  split.
  - intros initReq w id w'.
    unfold CreateAssistantWithMetadata, assistant_key. unfold_go. intros H.
    break_match. eexists. compute_events.
    split; [done|]. split; [by apply Z.eqb_eq, negb_false_iff|].
    split; [done|]. by rewrite lookup_insert_eq.
  - intros videoID assistantID w tm w' Hk.
    unfold GetOrCreateThreadManager, createThread, thread_key in *. unfold_go.
    intros H. destruct (redis_fault env (trace w)) as [f|] eqn:Hf.
    { by rewrite fault_text_not_Nil in H. }
    rewrite Hk in H. break_match. eexists. compute_events.
    split; [done|]. split; [by apply Z.eqb_eq, negb_false_iff|].
    split; [done|]. by rewrite lookup_insert_eq.
Qed.

(** X7.  The in-process map is written under the identifier of the
    assistant, and only when a thread was resolved: a failed resolution
    leaves the map as it was, a successful one sets the entry of the
    assistant to the thread it returns.  Two resolutions for one assistant,
    whatever the videos, leave the thread of the second in the map. *)
Theorem threadManagers_keyed_by_assistant env :
  (forall videoID assistantID w r w',
     GetOrCreateThreadManager env videoID assistantID w = (r, w') ->
     threadManagers w' =
       match r with
       | Ok tm => <[assistantID := tm]> (threadManagers w)
       | Err _ => threadManagers w
       end)
  /\ (forall video1 video2 assistantID w tm1 w1 tm2 w2,
        GetOrCreateThreadManager env video1 assistantID w = (Ok tm1, w1) ->
        GetOrCreateThreadManager env video2 assistantID w1 = (Ok tm2, w2) ->
        threadManagers w2 = <[assistantID := tm2]> (threadManagers w)).
Proof.
  assert (Hone : forall videoID assistantID w r w',
    GetOrCreateThreadManager env videoID assistantID w = (r, w') ->
    threadManagers w' =
      match r with
      | Ok tm => <[assistantID := tm]> (threadManagers w)
      | Err _ => threadManagers w
      end).
  { intros videoID assistantID w r w'.
    unfold GetOrCreateThreadManager, createThread. unfold_go.
    intros H. by break_match. }
  split; [exact Hone|].
  intros video1 video2 a w tm1 w1 tm2 w2 H1 H2.
  rewrite (Hone _ _ _ _ _ H2), (Hone _ _ _ _ _ H1).
  apply insert_insert_eq.
Qed.

Section Polling.

Context (env : Env).

Lemma GetRunStatus_events tm runID w r w' :
  GetRunStatus env tm runID w = (r, w') ->
  events_since w w' = []
  \/ exists ans, events_since w w' = [Http (GetRun (ThreadID tm) runID) ans].
Proof.
  unfold GetRunStatus. unfold_go. intros H.
  break_match; compute_events; eauto.
Qed.

Lemma on_completed_counts tm videoID w r w' :
  on_completed env tm videoID w = (r, w') ->
  count is_sleep (events_since w w') = 0
  /\ count is_get_run (events_since w w') = 0
  /\ count is_get_messages (events_since w w') <= 1.
Proof.
  unfold on_completed, GetThreadMessages. unfold_go. intros H.
  break_match; compute_events; compute; lia.
Qed.

Lemma on_completed_no_assistant tm videoID w r w' t resp messages :
  on_completed env tm videoID w = (r, w') ->
  In (Http (GetMessages t) (Reply resp)) (events_since w w') ->
  StatusCode resp = StatusOK ->
  ReadErr resp = None ->
  json_messages env (Body resp) = Ok messages ->
  Forall (fun m => Role m <> "assistant") messages ->
  r = Err "no assistant message found" /\ redis w' = redis w.
Proof.
  unfold on_completed, GetThreadMessages. unfold_go.
  intros H Hin Hcode Hread Hjson Hnone.
  apply first_assistant_None in Hnone.
  revert Hin. break_match; compute_events; intros Hin;
    repeat (destruct Hin as [Hin|Hin]; simplify_eq); try done;
    try (rewrite Hcode in *; done); congruence.
Qed.

Lemma poll_counts fuel tm runID videoID w r w' :
  poll env fuel tm runID videoID w = Some (r, w') ->
  count is_get_run (events_since w w') <= count is_sleep (events_since w w')
  /\ count is_sleep (events_since w w') <= fuel
  /\ count is_get_messages (events_since w w') <= 1
  /\ (forall t run ans,
        In (Http (GetRun t run) ans) (events_since w w') ->
        t = ThreadID tm /\ run = runID).
Proof.
  revert w. induction fuel as [|fuel IH]; intros w H; [done|].
  simpl in H.
  destruct (GetRunStatus env tm runID _) as [[status|e] w1] eqn:Hs.
  - destruct (GetRunStatus_effect _ tm runID videoID _ _ _ Hs) as (Hs1 & _).
    assert (Hs0 : steps (footprint_poll tm videoID) w (record (Sleep (2 * Second)) w))
      by (by apply steps_record).
    assert (Hone : count is_get_run (events_since (record (Sleep (2 * Second)) w) w1) <= 1
      /\ count is_sleep (events_since (record (Sleep (2 * Second)) w) w1) = 0
      /\ count is_get_messages (events_since (record (Sleep (2 * Second)) w) w1) = 0
      /\ forall t run ans,
           In (Http (GetRun t run) ans) (events_since (record (Sleep (2 * Second)) w) w1) ->
           t = ThreadID tm /\ run = runID).
    { destruct (GetRunStatus_events _ _ _ _ _ Hs) as [->|[ans ->]].
      - split; [compute; lia|]. split; [done|]. split; [done|].
        by intros t run ans [].
      - split; [compute; lia|]. split; [done|]. split; [done|].
        intros t run ans' [Heq|[]]. by simplify_eq. }
    destruct Hone as (Hg1 & Hsl1 & Hm1 & Hid1).
    assert (Hrest : exists r2,
      steps (footprint_poll tm videoID) w1 w'
      /\ count is_get_run (events_since w1 w') <= count is_sleep (events_since w1 w')
      /\ count is_sleep (events_since w1 w') <= fuel
      /\ count is_get_messages (events_since w1 w') <= 1
      /\ (forall t run ans,
            In (Http (GetRun t run) ans) (events_since w1 w') ->
            t = ThreadID tm /\ run = runID) /\ r2 = r).
    { destruct (String.eqb status "completed").
      - injection H as H.
        destruct (on_completed_effect _ tm videoID _ _ _ H) as (Hs2 & _).
        destruct (on_completed_counts _ _ _ _ _ H) as (Hc1 & Hc2 & Hc3).
        exists r. split; [done|]. rewrite Hc1, Hc2.
        split; [lia|]. split; [lia|]. split; [done|]. split; [|done].
        intros t run ans Hin.
        assert (Hz : count is_get_run [Http (GetRun t run) ans] = 1) by done.
        apply list_elem_of_In, list_elem_of_split in Hin as (l1 & l2 & Hl).
        rewrite Hl, count_app in Hc2.
        change (Http (GetRun t run) ans :: l2)
          with ([Http (GetRun t run) ans] ++ l2) in Hc2.
        rewrite count_app, Hz in Hc2. lia.
      - destruct (poll_effect _ _ _ _ _ _ _ _ H) as (Hs2 & _).
        destruct (IH _ H) as (A & B & C & D). exists r.
        split; [done|]. split; [done|]. split; [done|]. split; [done|].
        split; [exact D | done]. }
    destruct Hrest as (r2 & Hs2 & Hg2 & Hsl2 & Hm2 & Hid2 & _).
    assert (Hs01 : steps (footprint_poll tm videoID) w w1) by by eapply steps_trans.
    rewrite (events_since_split _ _ _ _ _ Hs01 Hs2).
    rewrite (events_since_split _ _ _ _ _ Hs0 Hs1).
    rewrite events_since_record, !count_app.
    change (count is_get_run [Sleep (2 * Second)]) with 0.
    change (count is_sleep [Sleep (2 * Second)]) with 1.
    change (count is_get_messages [Sleep (2 * Second)]) with 0.
    split; [lia|]. split; [lia|]. split; [lia|].
    intros t run ans Hin.
    apply in_app_or in Hin as [Hin|Hin]; [|by eapply Hid2].
    apply in_app_or in Hin as [[Hin|[]]|Hin]; [done|by eapply Hid1].
  - simplify_eq.
    destruct (GetRunStatus_effect _ tm runID videoID _ _ _ Hs) as (Hs1 & _).
    assert (Hs0 : steps (footprint_poll tm videoID) w (record (Sleep (2 * Second)) w))
      by (by apply steps_record).
    rewrite (events_since_split _ _ _ _ _ Hs0 Hs1).
    rewrite events_since_record, !count_app.
    destruct (GetRunStatus_events _ _ _ _ _ Hs) as [->|[ans ->]].
    + split; [compute; lia|]. split; [compute; lia|]. split; [compute; lia|].
      by intros t run ans [Hin|[]].
    + split; [compute; lia|]. split; [compute; lia|]. split; [compute; lia|].
      intros t run ans' [Hin|[Hin|[]]]; by simplify_eq.
Qed.

Lemma poll_no_assistant fuel tm runID videoID w r w' t resp messages :
  poll env fuel tm runID videoID w = Some (r, w') ->
  In (Http (GetMessages t) (Reply resp)) (events_since w w') ->
  StatusCode resp = StatusOK ->
  ReadErr resp = None ->
  json_messages env (Body resp) = Ok messages ->
  Forall (fun m => Role m <> "assistant") messages ->
  r = Err "no assistant message found" /\ redis w' = redis w.
Proof.
  intros H Hin Hcode Hread Hjson Hnone. revert w H Hin.
  induction fuel as [|fuel IH]; intros w H Hin; [done|].
  simpl in H.
  destruct (GetRunStatus env tm runID _) as [[status|e] w1] eqn:Hs.
  - destruct (GetRunStatus_effect _ tm runID videoID _ _ _ Hs) as (Hs1 & Hr1 & _).
    assert (Hs0 : steps (footprint_poll tm videoID) w (record (Sleep (2 * Second)) w))
      by (by apply steps_record).
    assert (Hs01 : steps (footprint_poll tm videoID) w w1) by by eapply steps_trans.
    assert (Hrest : steps (footprint_poll tm videoID) w1 w'
                    /\ (In (Http (GetMessages t) (Reply resp)) (events_since w1 w') ->
                        r = Err "no assistant message found" /\ redis w' = redis w1)).
    { destruct (String.eqb status "completed").
      - injection H as H.
        destruct (on_completed_effect _ tm videoID _ _ _ H) as (Hs2 & _).
        split; [done|]. intros Hin'.
        by eapply on_completed_no_assistant.
      - destruct (poll_effect _ _ _ _ _ _ _ _ H) as (Hs2 & _).
        split; [done|]. intros Hin'. by apply IH. }
    destruct Hrest as [Hs2 Hrest].
    rewrite (events_since_split _ _ _ _ _ Hs01 Hs2) in Hin.
    rewrite (events_since_split _ _ _ _ _ Hs0 Hs1) in Hin.
    rewrite events_since_record in Hin.
    apply in_app_or in Hin as [Hin|Hin].
    + apply in_app_or in Hin as [[Hin|[]]|Hin]; [done|].
      destruct (GetRunStatus_events _ _ _ _ _ Hs) as [Hev|[ans Hev]];
        rewrite Hev in Hin; [done|]. by destruct Hin as [Hin|[]].
    + destruct (Hrest Hin) as [-> ->]. by rewrite Hr1.
  - simplify_eq. exfalso.
    destruct (GetRunStatus_effect _ tm runID videoID _ _ _ Hs) as (Hs1 & _).
    assert (Hs0 : steps (footprint_poll tm videoID) w (record (Sleep (2 * Second)) w))
      by (by apply steps_record).
    rewrite (events_since_split _ _ _ _ _ Hs0 Hs1) in Hin.
    rewrite events_since_record in Hin.
    apply in_app_or in Hin as [[Hin|[]]|Hin]; [done|].
    destruct (GetRunStatus_events _ _ _ _ _ Hs) as [Hev|[ans Hev]];
      rewrite Hev in Hin; [done|]. by destruct Hin as [Hin|[]].
Qed.

End Polling.


(** X9.  A job that completes on a thread with no assistant message.  When
    the job completes after [k] rounds answered otherwise and the list of
    messages read then holds no message whose role is "assistant",
    [RunAssistant] returns the error "no assistant message found", with
    every bound above [k], and the store is as it was: nothing is pushed on
    the log.  And whenever a run ends after the provider answered such a
    list, it has ended in this way. *)
Theorem completed_without_assistant env tm assistantID videoID :
  (forall w runResp w0 k w1 messages w2,
     start_run env tm assistantID w = (Ok runResp, w0) ->
     completes env tm (run_ID runResp) k w0 w1 ->
     GetThreadMessages env tm w1 = (Ok messages, w2) ->
     Forall (fun m => Role m <> "assistant") messages ->
     (forall fuel,
        k < fuel ->
        RunAssistant env fuel tm assistantID videoID w
        = Some (Err "no assistant message found", w2))
     /\ redis w2 = redis w)
  /\ (forall fuel w r w' t resp messages,
        RunAssistant env fuel tm assistantID videoID w = Some (r, w') ->
        In (Http (GetMessages t) (Reply resp)) (events_since w w') ->
        StatusCode resp = StatusOK ->
        ReadErr resp = None ->
        json_messages env (Body resp) = Ok messages ->
        Forall (fun m => Role m <> "assistant") messages ->
        r = Err "no assistant message found" /\ redis w' = redis w).
Proof.
  split.
  { intros w runResp w0 k w1 messages w2 Hs Hc Hm Hnone. split.
    - intros fuel Hk.
      rewrite (RunAssistant_completes env _ _ _ videoID _ _ _ _ _ Hs Hc Hk).
      f_equal. apply on_completed_no_reply with messages; [done|].
      by apply first_assistant_None.
    - destruct (start_run_effect _ _ _ _ _ _ Hs) as (_ & Hr0 & _).
      destruct (completes_effect env _ _ videoID _ _ _ Hc) as (_ & Hr1 & _).
      destruct (GetThreadMessages_effect env _ videoID _ _ _ Hm) as (_ & Hr2 & _).
      by rewrite Hr2, Hr1, Hr0. }
  intros fuel w r w' t resp messages.
  unfold RunAssistant. intros H Hin Hcode Hread Hjson Hnone.
  destruct (start_run env tm assistantID w) as [r1 w1] eqn:Hs.
  destruct (start_run_effect _ _ _ _ _ _ Hs) as (Hs1 & Hr1 & _).
  destruct r1 as [runResp|e].
  - destruct (poll_effect _ _ _ _ _ _ _ _ H) as (Hs2 & _).
    rewrite (events_since_split _ _ _ _ _ Hs1 Hs2) in Hin.
    apply in_app_or in Hin as [Hin|Hin].
    + destruct (steps_In _ _ _ _ Hs1 Hin).
    + destruct (poll_no_assistant _ _ _ _ _ _ _ _ _ _ _ H Hin Hcode Hread Hjson Hnone)
        as [-> ->]. by rewrite Hr1.
  - simplify_eq. destruct (steps_In _ _ _ _ Hs1 Hin).
Qed.

Section Asking.

Context (env : Env).

Lemma interactions_key_inj v v' : interactions_key v = interactions_key v' -> v = v'.
Proof. unfold interactions_key. apply String.app_inj. Qed.

Lemma interactions_lookup w w' videoID :
  redis w' !! interactions_key videoID = redis w !! interactions_key videoID ->
  interactions w' videoID = interactions w videoID.
Proof. unfold interactions. fold (interactions_key videoID). by intros ->. Qed.

Lemma GetOrCreateThreadManager_lookup_ne videoID assistantID w r w' key :
  GetOrCreateThreadManager env videoID assistantID w = (r, w') ->
  key <> thread_key videoID ->
  redis w' !! key = redis w !! key.
Proof.
  intros H Hk. destruct (GetOrCreateThreadManager_effect _ _ _ _ _ _ H) as [_ ->].
  destruct r; [|done]. destruct (redis w !! thread_key videoID); [done|].
  by rewrite lookup_insert_ne.
Qed.

Lemma AddMessageToThread_lookup_ne tm role content videoID w r w' key :
  AddMessageToThread env tm role content videoID w = (r, w') ->
  key <> interactions_key videoID ->
  redis w' !! key = redis w !! key.
Proof.
  intros H Hk. destruct (AddMessageToThread_effect _ _ _ _ _ _ _ _ H) as (_ & _ & ->).
  destruct r; [|done]. by rewrite lookup_insert_ne.
Qed.

Lemma RunAssistant_lookup_ne fuel tm assistantID videoID w r w' key :
  RunAssistant env fuel tm assistantID videoID w = Some (r, w') ->
  key <> interactions_key videoID ->
  redis w' !! key = redis w !! key.
Proof.
  intros H Hk. destruct (RunAssistant_effect _ _ _ _ _ _ _ _ H) as (_ & _ & ->).
  destruct r; [|done]. by apply pushed_lookup_ne.
Qed.

Lemma AskAssistantQuestion_lookup_ne fuel videoID assistantID question w r w' key :
  AskAssistantQuestion env fuel videoID assistantID question w = Some (r, w') ->
  key <> thread_key videoID ->
  key <> interactions_key videoID ->
  redis w' !! key = redis w !! key.
Proof.
  intros H Ht Hi.
  destruct (AskAssistantQuestion_inv _ _ _ _ _ _ _ _ H)
    as [(e & Hg & ->) | [(tm & w1 & e & Hg & Ha & ->) | (tm & w1 & w2 & Hg & Ha & Hr)]].
  - by eapply GetOrCreateThreadManager_lookup_ne.
  - rewrite (AddMessageToThread_lookup_ne _ _ _ _ _ _ _ _ Ha Hi).
    by eapply GetOrCreateThreadManager_lookup_ne.
  - rewrite (RunAssistant_lookup_ne _ _ _ _ _ _ _ _ Hr Hi).
    rewrite (AddMessageToThread_lookup_ne _ _ _ _ _ _ _ _ Ha Hi).
    by eapply GetOrCreateThreadManager_lookup_ne.
Qed.

(** The log of the video after a question, by the way the question ended. *)
Lemma AskAssistantQuestion_log_cases fuel videoID assistantID question w r w' :
  AskAssistantQuestion env fuel videoID assistantID question w = Some (r, w') ->
  match r with
  | Ok reply =>
      interactions w' videoID
      = interactions w videoID ++ [question; "Assistant: " +:+ reply]
  | Err _ =>
      interactions w' videoID = interactions w videoID
      \/ interactions w' videoID = interactions w videoID ++ [question]
  end.
Proof.
  intros H. destruct r as [reply|e0]; [by eapply AskAssistantQuestion_log|].
  destruct (AskAssistantQuestion_inv _ _ _ _ _ _ _ _ H)
    as [(e & Hg & ?) | [(tm & w1 & e & Hg & Ha & ?) | (tm & w1 & w2 & Hg & Ha & Hr)]].
  - left. by eapply interactions_GetOrCreateThreadManager.
  - left. destruct (AddMessageToThread_effect _ _ _ _ _ _ _ _ Ha) as (_ & _ & Hredis).
    rewrite (interactions_same _ _ _ Hredis).
    by eapply interactions_GetOrCreateThreadManager.
  - right.
    destruct (AddMessageToThread_effect _ _ _ _ _ _ _ _ Ha) as (_ & _ & Hredis2).
    destruct (RunAssistant_effect _ _ _ _ _ _ _ _ Hr) as (_ & _ & Hredis3).
    rewrite (interactions_same _ _ _ Hredis3), (interactions_pushed _ _ _ _ Hredis2).
    by rewrite (interactions_GetOrCreateThreadManager _ _ _ _ _ _ _ Hg).
Qed.

(** The thread a resolution returns is the one under the key afterwards,
    and the one that was there before when there was one. *)
Lemma GetOrCreateThreadManager_Ok_key videoID assistantID w tm w' :
  GetOrCreateThreadManager env videoID assistantID w = (Ok tm, w') ->
  (exists e, redis w' !! thread_key videoID = Some (RString (ThreadID tm) e))
  /\ (forall t0 e0,
        redis w !! thread_key videoID = Some (RString t0 e0) -> ThreadID tm = t0).
Proof.
  unfold GetOrCreateThreadManager, createThread, thread_key. unfold_go.
  intros H. destruct (redis_fault env (trace w)) as [f|] eqn:Hf.
  { by rewrite fault_text_not_Nil in H. }
  destruct (redis w !! ("thread_id:" +:+ videoID)) as [[t e|l]|] eqn:Hk;
    simpl in H.
  - simplify_eq. simpl. split; [eauto|]. intros t0 e0 ?. by simplify_eq.
  - done.
  - split; [|done]. break_match. eexists. by rewrite lookup_insert_eq.
Qed.

Lemma footprint_thread_on_thread videoID t ev :
  footprint_thread videoID ev -> on_thread t ev.
Proof. by destruct ev as [[]| | | |]. Qed.

Lemma footprint_post_on_thread tm role content videoID ev :
  footprint_post tm role content videoID ev -> on_thread (ThreadID tm) ev.
Proof. destruct ev as [[]| | | |]; simpl; try done. by intros [? _]. Qed.

Lemma footprint_run_on_thread tm assistantID videoID ev :
  footprint_run tm assistantID videoID ev -> on_thread (ThreadID tm) ev.
Proof.
  intros [H|H]; destruct ev as [[]| | | |]; simpl in *; try done. by destruct H.
Qed.

(** One question speaks to one thread: the one under the key of the video
    when there is one, which stays there, and otherwise the one that is
    under the key after a question that succeeds. *)
Lemma AskAssistantQuestion_on_thread fuel videoID assistantID question w r w' :
  AskAssistantQuestion env fuel videoID assistantID question w = Some (r, w') ->
  steps (fun _ => True) w w'
  /\ (forall t0 e0,
        redis w !! thread_key videoID = Some (RString t0 e0) ->
        Forall (on_thread t0) (events_since w w')
        /\ redis w' !! thread_key videoID = Some (RString t0 e0))
  /\ (exists t,
        Forall (on_thread t) (events_since w w')
        /\ (is_Ok r = true ->
            exists e, redis w' !! thread_key videoID = Some (RString t e))).
Proof.
  intros H.
  destruct (AskAssistantQuestion_threads _ _ _ _ _ _ _ _ H) as (Hsteps & _).
  split; [done|].
  destruct (AskAssistantQuestion_inv _ _ _ _ _ _ _ _ H)
    as [(e & Hg & ->) | [(tm & w1 & e & Hg & Ha & ->) | (tm & w1 & w2 & Hg & Ha & Hr)]].
  - destruct (GetOrCreateThreadManager_effect _ _ _ _ _ _ Hg) as [Hs Hredis].
    assert (Hev : forall t, Forall (on_thread t) (events_since w w')).
    { intros t. eapply Forall_impl; [by apply steps_events_since|].
      apply footprint_thread_on_thread. }
    split.
    + intros t0 e0 Hk. split; [apply Hev|]. by rewrite Hredis.
    + exists "". split; [apply Hev | done].
  - destruct (GetOrCreateThreadManager_effect _ _ _ _ _ _ Hg) as [Hs _].
    destruct (GetOrCreateThreadManager_Ok_key _ _ _ _ _ Hg) as [[e1 Hk1] Hsame].
    destruct (AddMessageToThread_effect _ _ _ _ _ _ _ _ Ha) as (Hs2 & _).
    assert (Hev : Forall (on_thread (ThreadID tm)) (events_since w w')).
    { rewrite (events_since_split _ _ _ _ _ Hs Hs2). apply Forall_app. split.
      - eapply Forall_impl; [by apply steps_events_since|].
        apply footprint_thread_on_thread.
      - eapply Forall_impl; [by apply steps_events_since|].
        apply footprint_post_on_thread. }
    assert (Hkeep : redis w' !! thread_key videoID = redis w1 !! thread_key videoID).
    { eapply AddMessageToThread_lookup_ne; [exact Ha|].
      apply thread_key_not_interactions. }
    split.
    + intros t0 e0 Hk. pose proof (Hsame _ _ Hk) as Heq. subst t0.
      split; [done|]. rewrite Hkeep.
      rewrite (proj2 (GetOrCreateThreadManager_effect _ _ _ _ _ _ Hg)).
      by rewrite Hk.
    + exists (ThreadID tm). split; [done|]. done.
  - destruct (GetOrCreateThreadManager_effect _ _ _ _ _ _ Hg) as [Hs _].
    destruct (GetOrCreateThreadManager_Ok_key _ _ _ _ _ Hg) as [[e1 Hk1] Hsame].
    destruct (AddMessageToThread_effect _ _ _ _ _ _ _ _ Ha) as (Hs2 & _).
    destruct (RunAssistant_effect _ _ _ _ _ _ _ _ Hr) as (Hs3 & _).
    assert (Hs23 : steps (fun _ => True) w1 w').
    { eapply steps_trans; eapply steps_impl; eauto. }
    assert (Hev : Forall (on_thread (ThreadID tm)) (events_since w w')).
    { rewrite (events_since_split _ _ _ _ _ Hs Hs23).
      rewrite (events_since_split _ _ _ _ _ Hs2 Hs3).
      apply Forall_app. split; [|apply Forall_app; split].
      - eapply Forall_impl; [by apply steps_events_since|].
        apply footprint_thread_on_thread.
      - eapply Forall_impl; [by apply steps_events_since|].
        apply footprint_post_on_thread.
      - eapply Forall_impl; [by apply steps_events_since|].
        apply footprint_run_on_thread. }
    assert (Hkeep : redis w' !! thread_key videoID = redis w1 !! thread_key videoID).
    { rewrite (RunAssistant_lookup_ne _ _ _ _ _ _ _ _ Hr
                 (thread_key_not_interactions _ _)).
      eapply AddMessageToThread_lookup_ne; [exact Ha|].
      apply thread_key_not_interactions. }
    split.
    + intros t0 e0 Hk. pose proof (Hsame _ _ Hk) as Heq. subst t0.
      split; [done|]. rewrite Hkeep.
      rewrite (proj2 (GetOrCreateThreadManager_effect _ _ _ _ _ _ Hg)).
      by rewrite Hk.
    + exists (ThreadID tm). split; [done|]. intros _. exists e1. by rewrite Hkeep.
Qed.

Lemma expire_lookup key w v e :
  redis w !! key = Some (RString v e) -> redis (expire key w) !! key = None.
Proof. unfold expire. intros ->. simpl. apply lookup_delete_eq. Qed.

(** A resolution that finds no thread under the key and succeeds has
    created one, and written its identifier under the key. *)
Lemma GetOrCreateThreadManager_miss videoID assistantID w tm w' :
  redis w !! thread_key videoID = None ->
  GetOrCreateThreadManager env videoID assistantID w = (Ok tm, w') ->
  count is_create_thread (events_since w w') = 1
  /\ (exists resp,
        In (Http PostThreads (Reply resp)) (events_since w w')
        /\ json_id env resp = Ok (ThreadID tm))
  /\ redis w' !! thread_key videoID = Some (RString (ThreadID tm) (24 * Hour)).
Proof.
  intros Hk Hg.
  destruct (GetOrCreateThreadManager_effect env _ _ _ _ _ Hg) as [_ Hredis].
  rewrite Hk in Hredis.
  split; [|split; [|by rewrite Hredis, lookup_insert_eq]];
    revert Hg; unfold GetOrCreateThreadManager, createThread; unfold_go;
    fold (thread_key videoID); rewrite Hk; intros Hg;
    break_match; compute_events;
    first [reflexivity | eexists; split; [right; by left|done]].
Qed.

End Asking.



(** X13.  The questions of a session speak to one thread, as long as the
    key of the thread does not expire.  In a run of questions about one
    video, asked one after the other up to the first that fails, with no
    expiry in between, every request that names a thread (posting a
    message, starting a job, asking for its status, listing the messages)
    names the same one; it is the thread under the key of the video when the
    run starts with one there.  Once the key has expired, the thread that
    was under it is no longer found: a resolution that succeeds has created
    a new thread at the provider and written its identifier under the key,
    for 24 hours again. *)
Theorem session_on_one_thread env videoID assistantID :
  (forall fuel questions w r w',
     ask_all env fuel videoID assistantID questions w = Some (r, w') ->
     (exists t, Forall (on_thread t) (events_since w w'))
     /\ (forall t0 e0,
           redis w !! thread_key videoID = Some (RString t0 e0) ->
           Forall (on_thread t0) (events_since w w')))
  /\ (forall w t0 e0 tm w',
        redis w !! thread_key videoID = Some (RString t0 e0) ->
        GetOrCreateThreadManager env videoID assistantID (expire (thread_key videoID) w)
        = (Ok tm, w') ->
        count is_create_thread (events_since (expire (thread_key videoID) w) w') = 1
        /\ (exists resp,
              In (Http PostThreads (Reply resp))
                 (events_since (expire (thread_key videoID) w) w')
              /\ json_id env resp = Ok (ThreadID tm))
        /\ redis w' !! thread_key videoID = Some (RString (ThreadID tm) (24 * Hour))).
Proof.
  split; [|intros w t0 e0 tm w' Hk Hg;
           apply (GetOrCreateThreadManager_miss env _ _ _ _ _ (expire_lookup _ _ _ _ Hk) Hg)].
  intros fuel questions.
  assert (Hset : forall questions w r w' t0 e0,
    ask_all env fuel videoID assistantID questions w = Some (r, w') ->
    redis w !! thread_key videoID = Some (RString t0 e0) ->
    steps (fun _ => True) w w' /\ Forall (on_thread t0) (events_since w w')).
  { clear questions.
    induction questions as [|question questions IH]; intros w r w' t0 e0 H Hk;
      simpl in H.
    - simplify_eq. unfold events_since. rewrite drop_all.
      split; [apply steps_refl | constructor].
    - destruct (AskAssistantQuestion env fuel videoID assistantID question w)
        as [[[reply|e] w1]|] eqn:Hq; [| |done].
      + destruct (AskAssistantQuestion_on_thread _ _ _ _ _ _ _ _ Hq)
          as (Hs1 & Hkept & _).
        destruct (Hkept _ _ Hk) as [Hev1 Hk1].
        destruct (ask_all env fuel videoID assistantID questions w1)
          as [[r2 w2]|] eqn:Hrest; [|done].
        assert (w' = w2) as -> by (by destruct r2; simplify_eq).
        destruct (IH _ _ _ _ _ Hrest Hk1) as [Hs2 Hev2].
        split; [by eapply steps_trans|].
        rewrite (events_since_split _ _ _ _ _ Hs1 Hs2). by apply Forall_app.
      + simplify_eq.
        destruct (AskAssistantQuestion_on_thread _ _ _ _ _ _ _ _ Hq)
          as (Hs1 & Hkept & _).
        by destruct (Hkept _ _ Hk). }
  intros w r w' H. split; [|intros t0 e0 Hk; by eapply Hset].
  destruct questions as [|question questions]; simpl in H.
  - simplify_eq. exists "". unfold events_since. rewrite drop_all. constructor.
  - destruct (AskAssistantQuestion env fuel videoID assistantID question w)
      as [[[reply|e] w1]|] eqn:Hq; [| |done].
    + destruct (AskAssistantQuestion_on_thread _ _ _ _ _ _ _ _ Hq)
        as (Hs1 & _ & t & Hev1 & Hok).
      destruct (Hok eq_refl) as [e1 Hk1].
      destruct (ask_all env fuel videoID assistantID questions w1)
        as [[r2 w2]|] eqn:Hrest; [|done].
      assert (w' = w2) as -> by (by destruct r2; simplify_eq).
      destruct (Hset _ _ _ _ _ _ Hrest Hk1) as [Hs2 Hev2].
      exists t. rewrite (events_since_split _ _ _ _ _ Hs1 Hs2). by apply Forall_app.
    + simplify_eq.
      destruct (AskAssistantQuestion_on_thread _ _ _ _ _ _ _ _ Hq)
        as (_ & _ & t & Hev1 & _).
      by exists t.
Qed.

Lemma fault_text_not_WRONGTYPE f : fault_text f <> WRONGTYPE.
Proof. by destruct f. Qed.

Ltac solve_kinds Hk :=
  repeat first [apply List.Forall_nil | apply List.Forall_cons];
  simpl; try done;
  try (let Hr := fresh in
       intros Hr;
       first [ done
             | by apply fault_text_not_WRONGTYPE in Hr
             | by eapply Hk ]).

Section Kinds.

Context (env : Env).

Lemma assistant_key_not_interactions v v' : assistant_key v <> interactions_key v'.
Proof. unfold assistant_key, interactions_key. simpl. intros H. discriminate H. Qed.

Lemma well_kinded_insert_string m key v e :
  (forall videoID, key <> interactions_key videoID) ->
  well_kinded m -> well_kinded (<[key := RString v e]> m).
Proof.
  intros Hkey Hm videoID. destruct (Hm videoID) as (Ht & Ha & Hi).
  split; [|split].
  - intros l. rewrite lookup_insert. case_decide; [done | apply Ht].
  - intros l. rewrite lookup_insert. case_decide; [done | apply Ha].
  - intros v0 e0. rewrite lookup_insert_ne; [apply Hi | apply Hkey].
Qed.

Lemma well_kinded_insert_list m videoID l :
  well_kinded m -> well_kinded (<[interactions_key videoID := RList l]> m).
Proof.
  intros Hm v'. destruct (Hm v') as (Ht & Ha & Hi).
  split; [|split].
  - intros l0. rewrite lookup_insert_ne; [apply Ht|].
    intros Heq. symmetry in Heq. by apply thread_key_not_interactions in Heq.
  - intros l0. rewrite lookup_insert_ne; [apply Ha|].
    intros Heq. symmetry in Heq. by apply assistant_key_not_interactions in Heq.
  - intros v0 e0. rewrite lookup_insert. case_decide; [done | apply Hi].
Qed.

Lemma steps_refine (P Q : Event -> Prop) w w' :
  steps P w w' -> Forall Q (events_since w w') -> steps Q w w'.
Proof.
  intros (evs & Htrace & _) HQ. exists evs. split; [done|].
  by rewrite (events_since_app _ _ _ Htrace) in HQ.
Qed.

(** The rounds of the loop before the last make no call to the store. *)
Lemma poll_inv fuel tm runID videoID w r w' :
  poll env fuel tm runID videoID w = Some (r, w') ->
  exists w1,
    steps (fun ev => is_store ev = false) w w1
    /\ redis w1 = redis w
    /\ ((w' = w1 /\ is_Ok r = false) \/ on_completed env tm videoID w1 = (r, w')).
Proof.
  revert w. induction fuel as [|fuel IH]; intros w H; [done|].
  simpl in H.
  destruct (GetRunStatus env tm runID _) as [[status|e] w1] eqn:Hs;
    destruct (GetRunStatus_effect _ tm runID videoID _ _ _ Hs) as (Hs1 & Hr1 & _);
    simpl in Hr1.
  all: assert (Hquiet : steps (fun ev => is_store ev = false) w w1);
    [ apply steps_trans with (record (Sleep (2 * Second)) w);
        [by apply steps_record|];
      eapply steps_refine; [exact Hs1|];
      by destruct (GetRunStatus_events _ _ _ _ _ _ Hs) as [->|[ans ->]];
        repeat constructor | ].
  - destruct (String.eqb status "completed").
    + injection H as H. exists w1. split; [done|]. split; [done|]. by right.
    + destruct (IH _ H) as (w2 & Hs2 & Hr2 & Hend).
      exists w2. split; [by eapply steps_trans|]. split; [congruence | done].
  - simplify_eq. exists w'. split; [done|]. split; [done|]. by left.
Qed.

Lemma quiet_not_refused ev : is_store ev = false -> ~ refused_for_kind ev.
Proof. destruct ev; simpl; intros H; try done; by intros []. Qed.

Lemma GetOrCreateThreadManager_kinds videoID assistantID w r w' :
  well_kinded (redis w) ->
  GetOrCreateThreadManager env videoID assistantID w = (r, w') ->
  well_kinded (redis w')
  /\ Forall (fun ev => ~ refused_for_kind ev) (events_since w w').
Proof.
  intros Hw H. split.
  - destruct (GetOrCreateThreadManager_effect _ _ _ _ _ _ H) as [_ ->].
    destruct r; [|done]. destruct (redis w !! thread_key videoID); [done|].
    apply well_kinded_insert_string; [|done].
    intros v. apply thread_key_not_interactions.
  - destruct (Hw videoID) as (Ht & _). revert H.
    unfold GetOrCreateThreadManager, createThread, thread_key in *. unfold_go.
    intros H. break_match; compute_events; solve_kinds Ht.
Qed.

Lemma AddMessageToThread_kinds tm role content videoID w r w' :
  well_kinded (redis w) ->
  AddMessageToThread env tm role content videoID w = (r, w') ->
  well_kinded (redis w')
  /\ Forall (fun ev => ~ refused_for_kind ev) (events_since w w').
Proof.
  intros Hw H. split.
  - destruct (AddMessageToThread_effect _ _ _ _ _ _ _ _ H) as (_ & _ & ->).
    destruct r; [|done]. by apply well_kinded_insert_list.
  - destruct (Hw videoID) as (_ & _ & Hi). revert H.
    unfold AddMessageToThread, interactions_key in *. unfold_go.
    intros H. break_match; compute_events; solve_kinds Hi.
Qed.

Lemma on_completed_kinds tm videoID w r w' :
  well_kinded (redis w) ->
  on_completed env tm videoID w = (r, w') ->
  Forall (fun ev => ~ refused_for_kind ev) (events_since w w').
Proof.
  intros Hw. destruct (Hw videoID) as (_ & _ & Hi).
  unfold on_completed, GetThreadMessages, interactions_key in *. unfold_go.
  intros H. break_match; compute_events; solve_kinds Hi.
Qed.

Lemma RunAssistant_kinds fuel tm assistantID videoID w r w' :
  well_kinded (redis w) ->
  RunAssistant env fuel tm assistantID videoID w = Some (r, w') ->
  well_kinded (redis w')
  /\ Forall (fun ev => ~ refused_for_kind ev) (events_since w w').
Proof.
  intros Hw H. split.
  - destruct (RunAssistant_effect _ _ _ _ _ _ _ _ H) as (_ & _ & ->).
    destruct r; [|done]. by apply well_kinded_insert_list.
  - unfold RunAssistant in H.
    destruct (start_run env tm assistantID w) as [r1 w1] eqn:Hs.
    destruct (start_run_effect _ _ _ _ _ _ Hs) as (Hs1 & Hr1 & _).
    assert (Hq1 : Forall (fun ev => ~ refused_for_kind ev) (events_since w w1)).
    { eapply Forall_impl; [by apply steps_events_since|].
      intros ev Hf. destruct ev as [[]| | | |]; simpl in *; try done; by intros []. }
    destruct r1 as [runResp|e]; [|by simplify_eq].
    destruct (poll_effect _ _ _ _ _ _ _ _ H) as (Hs2 & _).
    rewrite (events_since_split _ _ _ _ _ Hs1 Hs2). apply Forall_app.
    split; [done|].
    destruct (poll_inv _ _ _ _ _ _ _ H) as (w2 & Hquiet & Hr2 & Hend).
    assert (Hq2 : Forall (fun ev => ~ refused_for_kind ev) (events_since w1 w2)).
    { eapply Forall_impl; [by apply steps_events_since|].
      apply quiet_not_refused. }
    destruct Hend as [[-> _]|Hc]; [done|].
    destruct (on_completed_effect _ tm videoID _ _ _ Hc) as (Hs3 & _).
    rewrite (events_since_split _ _ _ _ _ Hquiet Hs3). apply Forall_app.
    split; [done|]. eapply on_completed_kinds; [|exact Hc]. by rewrite Hr2, Hr1.
Qed.

End Kinds.

(** X14.  The kinds of the values in the store are kept, and the store never
    has a reason to refuse an operation for the kind of a key.  When no key
    of a thread or of an assistant holds a list and no key of a log holds a
    string, this is still so after [CreateAssistantWithMetadata] and after
    a question, however they end, and none of their store operations was
    answered with the wrong-kind error. *)
Theorem store_kinds_kept env :
  (forall initReq w r w',
     well_kinded (redis w) ->
     CreateAssistantWithMetadata env initReq w = (r, w') ->
     well_kinded (redis w')
     /\ Forall (fun ev => ~ refused_for_kind ev) (events_since w w'))
  /\ (forall fuel videoID assistantID question w r w',
        well_kinded (redis w) ->
        AskAssistantQuestion env fuel videoID assistantID question w = Some (r, w') ->
        well_kinded (redis w')
        /\ Forall (fun ev => ~ refused_for_kind ev) (events_since w w')).
Proof.
  split.
  - intros initReq w r w' Hw H. split.
    + destruct (CreateAssistantWithMetadata_effect _ _ _ _ _ H) as (_ & _ & ->).
      destruct r; [|done]. apply well_kinded_insert_string; [|done].
      intros v. apply assistant_key_not_interactions.
    + revert H. unfold CreateAssistantWithMetadata. unfold_go.
      intros H. break_match; compute_events; solve_kinds I.
  - intros fuel videoID assistantID question w r w' Hw H.
    destruct (AskAssistantQuestion_inv _ _ _ _ _ _ _ _ H)
      as [(e & Hg & ->) | [(tm & w1 & e & Hg & Ha & ->) | (tm & w1 & w2 & Hg & Ha & Hr)]].
    + by eapply GetOrCreateThreadManager_kinds.
    + destruct (GetOrCreateThreadManager_kinds _ _ _ _ _ _ Hw Hg) as [Hw1 Hq1].
      destruct (AddMessageToThread_kinds _ _ _ _ _ _ _ _ Hw1 Ha) as [Hw2 Hq2].
      destruct (GetOrCreateThreadManager_effect _ _ _ _ _ _ Hg) as [Hs1 _].
      destruct (AddMessageToThread_effect _ _ _ _ _ _ _ _ Ha) as (Hs2 & _).
      split; [done|]. rewrite (events_since_split _ _ _ _ _ Hs1 Hs2).
      by apply Forall_app.
    + destruct (GetOrCreateThreadManager_kinds _ _ _ _ _ _ Hw Hg) as [Hw1 Hq1].
      destruct (AddMessageToThread_kinds _ _ _ _ _ _ _ _ Hw1 Ha) as [Hw2 Hq2].
      destruct (RunAssistant_kinds _ _ _ _ _ _ _ _ Hw2 Hr) as [Hw3 Hq3].
      destruct (GetOrCreateThreadManager_effect _ _ _ _ _ _ Hg) as [Hs1 _].
      destruct (AddMessageToThread_effect _ _ _ _ _ _ _ _ Ha) as (Hs2 & _).
      destruct (RunAssistant_effect _ _ _ _ _ _ _ _ Hr) as (Hs3 & _).
      assert (Hs23 : steps (fun _ => True) w1 w').
      { eapply steps_trans; eapply steps_impl; eauto. }
      split; [done|]. rewrite (events_since_split _ _ _ _ _ Hs1 Hs23).
      rewrite (events_since_split _ _ _ _ _ Hs2 Hs3).
      apply Forall_app. split; [done|]. by apply Forall_app.
Qed.

(** X16.  A creation that the provider does not accept leaves nothing
    behind.  When the provider answers the creation of the assistant, or of
    the thread after a miss, with a transport error or a status other than
    200, the function returns an error, the store and the in-process map
    are as they were, and no write was sent to the store. *)
Theorem failed_creation_writes_nothing env :
  (forall initReq w r w',
     CreateAssistantWithMetadata env initReq w = (r, w') ->
     failed (send env (trace w)
               (PostAssistants (VideoID initReq) (instructions initReq))) = true ->
     is_Ok r = false /\ untouched w w'
     /\ count is_store (events_since w w') = 0)
  /\ (forall videoID assistantID w r w' ans,
        GetOrCreateThreadManager env videoID assistantID w = (r, w') ->
        In (Http PostThreads ans) (events_since w w') ->
        failed ans = true ->
        is_Ok r = false /\ untouched w w'
        /\ events_since w w'
           = [RedisGet (thread_key videoID) (Err redis_Nil); Http PostThreads ans]).
Proof.
  split.
  - intros initReq w r w'.
    unfold CreateAssistantWithMetadata, untouched. unfold_go. intros H Hfail.
    destruct (url_error env _); [simplify_eq; by compute_events|].
    destruct (send env (trace w) _) as [e|resp]; simpl in *.
    + simplify_eq. by compute_events.
    + rewrite Hfail in H. simplify_eq. by compute_events.
  - intros videoID assistantID w r w' ans.
    unfold GetOrCreateThreadManager, createThread, thread_key, untouched. unfold_go.
    intros H. destruct (redis_fault env (trace w)) as [f|] eqn:Hf.
    { rewrite fault_text_not_Nil in H. simplify_eq. compute_events.
      by intros [Hin|[]]. }
    revert H. break_match; intros H; simplify_eq; compute_events; intros Hin Hfail;
      repeat (destruct Hin as [Hin|Hin]; simplify_eq); try done;
      simpl in Hfail; congruence.
Qed.

(** ** The theorems at concrete inputs *)

Import Scenario.

(** Two questions answered in the environment [calm]. *)
Lemma interaction_log_after_asks_witness :
  let run := ask_all calm 3 "v1" "asst_v1" ["What is it about?"; "Who made it?"] fresh in
  ends_with run (Ok ["Hello, world."; "Hello, world."])
  /\ interactions (final run) "v1"
     = ["What is it about?"; "Assistant: Hello, world.";
        "Who made it?"; "Assistant: Hello, world."]
  /\ length (interactions (final run) "v1") = 4.
Proof.
  intros run.
  assert (Hrun : ends_with run (Ok ["Hello, world."; "Hello, world."]))
    by (vm_compute; reflexivity).
  split; [exact Hrun|].
  destruct (interaction_log_after_asks calm 3 "v1" "asst_v1"
              ["What is it about?"; "Who made it?"] fresh
              ["Hello, world."; "Hello, world."] (final run) Hrun)
    as (_ & Hlog & Hlen).
  split; [exact Hlog | exact (Hlen eq_refl)].
Defined.



(** The store after a run that succeeds, in [calm]. *)
Lemma store_keys_witness :
  let tm := {| ThreadID := "thread_1" |} in
  let run := RunAssistant calm 3 tm "asst_v1" "v1" fresh in
  ends_with run (Ok "Hello, world.")
  /\ redis (final run) = {["interactions:v1" := RList ["Assistant: Hello, world."]]}.
Proof.
  intros tm run.
  assert (Hrun : ends_with run (Ok "Hello, world.")) by (vm_compute; reflexivity).
  split; [exact Hrun|].
  rewrite (proj2 (proj2 (proj2 (store_keys calm))) 3 tm "asst_v1" "v1" fresh _ _ Hrun).
  vm_compute; reflexivity.
Defined.

(** C4 as stated fails.  After a session is initialized and a question
    answered for the video "v1", nothing is stored under [context:v1] or
    [thread:v1]; the identifiers are under [assistant_id:v1] and
    [thread_id:v1]. *)
Lemma keys_of_the_source :
  let w1 := (CreateAssistantWithMetadata calm request_v1 fresh).2 in
  let w2 := final (AskAssistantQuestion calm 3 "v1" "asst_v1" "Hi" w1) in
  redis w2 !! "context:v1" = None
  /\ redis w2 !! "thread:v1" = None
  /\ redis w2 !! "assistant_id:v1" = Some (RString "asst_v1" (24 * Hour))
  /\ redis w2 !! "thread_id:v1" = Some (RString "thread_1" (24 * Hour))
  /\ redis w2 !! "interactions:v1" = Some (RList ["Hi"; "Assistant: Hello, world."]).
Proof. vm_compute. repeat split. Qed.



(** A body that neither decoder accepts. *)
Lemma malformed_body_is_rejected_witness :
  is_Ok (decode_init "not json") = false
  /\ is_Ok (decode_question "not json") = false
  /\ Handlers.InitializeGPTSession decode_init create_session "not json" fresh
     = Some (Handlers.http_Error "Invalid request payload" 400, fresh)
  /\ Handlers.AskGPTQuestion decode_question fetch_response "not json" fresh
     = Some (Handlers.RespondWithError 400 "Invalid request payload", fresh).
Proof.
  split; [reflexivity|]. split; [reflexivity|].
  destruct (malformed_body_is_rejected decode_init decode_question
              create_session fetch_response "not json" fresh) as (Hinit & Hask & _).
  split; [exact (Hinit eq_refl) | exact (Hask eq_refl)].
Defined.

Lemma start_job_rejected_witness :
  let tm := {| ThreadID := "thread_1" |} in
  let resp := {| StatusCode := 429; Body := refused_body; ReadErr := None |} in
  let w1 := (GetOrCreateThreadManager no_job "v1" "asst_v1" fresh).2 in
  let w2 := (AddMessageToThread no_job tm "user" "Hi" "v1" w1).2 in
  let w' := record (Http (PostRuns "thread_1" "asst_v1") (Reply resp)) w2 in
  AskAssistantQuestion no_job 0 "v1" "asst_v1" "Hi" fresh
  = Some (Err ("failed to run assistant: " +:+ refused_body), w')
  /\ AskAssistantQuestion no_job 3 "v1" "asst_v1" "Hi" fresh
     = Some (Err ("failed to run assistant: " +:+ refused_body), w')
  /\ In (Http (PostRuns "thread_1" "asst_v1") (Reply resp)) (events_since fresh w')
  /\ interactions w' "v1" = ["Hi"].
Proof.
  intros tm resp w1 w2 w'.
  destruct (start_job_rejected no_job "v1" "asst_v1" "Hi") as [Hreturns Hreturned].
  destruct (Hreturns fresh tm w1 w2 resp) as [Hrun _].
  - vm_compute; reflexivity.
  - vm_compute; reflexivity.
  - reflexivity.
  - reflexivity.
  - discriminate.
  - assert (Hin : In (Http (PostRuns "thread_1" "asst_v1") (Reply resp))
                    (events_since fresh w')).
    { vm_compute. do 5 right. left. reflexivity. }
    split; [exact (Hrun 0)|]. split; [exact (Hrun 3)|]. split; [exact Hin|].
    apply (Hreturned 3 fresh _ w' "thread_1" "asst_v1" resp (Hrun 3) Hin).
    discriminate.
Defined.

(** The store is out of reach when the new identifier is to be written. *)
Lemma lost_write_is_an_error_witness :
  let out1 := CreateAssistantWithMetadata lost_assistant_write request_v1 fresh in
  let out2 := GetOrCreateThreadManager lost_thread_write "v1" "asst_v1" fresh in
  out1.1 = Err ("failed to store assistant ID in Redis: " +:+ fault_text ConnRefused)
  /\ out2.1 = Err ("failed to store thread ID in Redis: " +:+ fault_text ConnRefused).
Proof.
  intros out1 out2. split.
  - apply (proj1 (lost_write_is_an_error lost_assistant_write) request_v1 fresh
             out1.1 out1.2 "assistant_id:v1" "asst_v1" (24 * Hour)%Z
             (fault_text ConnRefused)).
    + vm_compute; reflexivity.
    + vm_compute. right. left. reflexivity.
  - apply (proj2 (lost_write_is_an_error lost_thread_write) "v1" "asst_v1" fresh
             out2.1 out2.2 "thread_id:v1" "thread_1" (24 * Hour)%Z
             (fault_text ConnRefused)).
    + vm_compute; reflexivity.
    + vm_compute. do 2 right. left. reflexivity.
Defined.

(** The provider refuses the message. *)
Lemma AddMessageToThread_failed_post_witness :
  let tm := {| ThreadID := "thread_1" |} in
  let out := AddMessageToThread no_post tm "user" "Hi" "v1" fresh in
  failed (send no_post (trace fresh) (PostMessage "thread_1" "user" "Hi")) = true
  /\ is_Ok out.1 = false
  /\ redis out.2 = redis fresh
  /\ interactions out.2 "v1" = interactions fresh "v1"
  /\ count is_RPush (events_since fresh out.2) = 0.
Proof.
  intros tm out. split; [reflexivity|].
  apply (AddMessageToThread_failed_post no_post tm "user" "Hi" "v1" fresh out.1 out.2).
  - vm_compute; reflexivity.
  - reflexivity.
Defined.

(** The run of [calm]: the third status is "completed". *)
Lemma reply_only_when_completed_witness :
  let tm := {| ThreadID := "thread_1" |} in
  let run := RunAssistant calm 3 tm "asst_v1" "v1" fresh in
  ends_with run (Ok "Hello, world.")
  /\ exists runID resp,
       In (Http (GetRun "thread_1" runID) (Reply resp)) (events_since fresh (final run))
       /\ StatusCode resp = StatusOK
       /\ json_status calm resp = Ok "completed".
Proof.
  intros tm run.
  assert (Hrun : ends_with run (Ok "Hello, world.")) by (vm_compute; reflexivity).
  split; [exact Hrun|].
  exact (reply_only_when_completed calm 3 tm "asst_v1" "v1" fresh
           "Hello, world." (final run) Hrun).
Defined.

(** The store is down: the lookup of the thread fails, and that is all. *)
Lemma lookup_error_creates_nothing_witness :
  let out := GetOrCreateThreadManager store_down "v1" "asst_v1" fresh in
  out.1 = Err ("failed to retrieve thread ID from Redis: " +:+ fault_text DialTimeout)
  /\ events_since fresh out.2 = [RedisGet "thread_id:v1" (Err (fault_text DialTimeout))]
  /\ untouched fresh out.2.
Proof.
  intros out.
  apply (lookup_error_creates_nothing store_down "v1" "asst_v1" fresh out.1 out.2
           "thread_id:v1" (fault_text DialTimeout)).
  - vm_compute; reflexivity.
  - vm_compute. left. reflexivity.
  - discriminate.
Defined.

(** A context and a thread created in [calm]. *)
Lemma creation_success_trace_witness :
  (exists resp,
     events_since fresh (CreateAssistantWithMetadata calm request_v1 fresh).2
     = [Http (PostAssistants "v1" (instructions request_v1)) (Reply resp);
        RedisSet "assistant_id:v1" "asst_v1" (24 * Hour) (Ok tt)]
     /\ StatusCode resp = StatusOK
     /\ json_id calm resp = Ok "asst_v1"
     /\ redis (CreateAssistantWithMetadata calm request_v1 fresh).2 !! "assistant_id:v1"
        = Some (RString "asst_v1" (24 * Hour)))
  /\ (exists resp,
        events_since fresh (GetOrCreateThreadManager calm "v1" "asst_v1" fresh).2
        = [RedisGet "thread_id:v1" (Err redis_Nil);
           Http PostThreads (Reply resp);
           RedisSet "thread_id:v1" "thread_1" (24 * Hour) (Ok tt)]
        /\ StatusCode resp = StatusOK
        /\ json_id calm resp = Ok "thread_1"
        /\ redis (GetOrCreateThreadManager calm "v1" "asst_v1" fresh).2 !! "thread_id:v1"
           = Some (RString "thread_1" (24 * Hour))).
Proof.
  split.
  - apply (proj1 (creation_success_trace calm) request_v1 fresh "asst_v1").
    vm_compute; reflexivity.
  - apply (proj2 (creation_success_trace calm) "v1" "asst_v1" fresh
             {| ThreadID := "thread_1" |}).
    + reflexivity.
    + vm_compute; reflexivity.
Defined.

(** Two videos resolved for one assistant in [calm]. *)
Lemma threadManagers_keyed_by_assistant_witness :
  let out1 := GetOrCreateThreadManager calm "v1" "asst" fresh in
  let out2 := GetOrCreateThreadManager calm "v2" "asst" out1.2 in
  threadManagers out2.2 = <["asst" := {| ThreadID := "thread_1" |}]> (threadManagers fresh).
Proof.
  intros out1 out2.
  apply (proj2 (threadManagers_keyed_by_assistant calm) "v1" "v2" "asst" fresh
           {| ThreadID := "thread_1" |} out1.2 {| ThreadID := "thread_1" |} out2.2).
  - vm_compute; reflexivity.
  - vm_compute; reflexivity.
Defined.


Lemma completed_without_assistant_witness :
  let tm := {| ThreadID := "thread_1" |} in
  outcome (RunAssistant no_answer 3 tm "asst_v1" "v1" fresh)
  = Some (Err "no assistant message found")
  /\ outcome (RunAssistant no_answer 8 tm "asst_v1" "v1" fresh)
     = Some (Err "no assistant message found")
  /\ redis (final (RunAssistant no_answer 3 tm "asst_v1" "v1" fresh)) = redis fresh
  /\ In (Http (GetMessages "thread_1")
           (Reply {| StatusCode := 200; Body := "messages"; ReadErr := None |}))
        (events_since fresh (final (RunAssistant no_answer 3 tm "asst_v1" "v1" fresh))).
Proof.
  intros tm.
  pose (s0 := start_run no_answer tm "asst_v1" fresh).
  pose (s1 := GetRunStatus no_answer tm "run_1" (record (Sleep (2 * Second)) s0.2)).
  pose (s2 := GetRunStatus no_answer tm "run_1" (record (Sleep (2 * Second)) s1.2)).
  pose (s3 := GetRunStatus no_answer tm "run_1" (record (Sleep (2 * Second)) s2.2)).
  pose (s4 := GetThreadMessages no_answer tm s3.2).
  assert (Hs : start_run no_answer tm "asst_v1" fresh
               = (Ok {| run_ID := "run_1"; run_Status := "queued" |}, s0.2))
    by reflexivity.
  assert (Hc : completes no_answer tm "run_1" 2 s0.2 s3.2).
  { exists s2.2. split; [|reflexivity].
    apply waits_S with "queued" s1.2; [reflexivity|reflexivity|].
    apply waits_S with "running" s2.2; [reflexivity|reflexivity|].
    apply waits_O. }
  assert (Hm : GetThreadMessages no_answer tm s3.2 = (Ok question_only, s4.2))
    by reflexivity.
  assert (Hnone : Forall (fun m => Role m <> "assistant") question_only)
    by (repeat constructor; discriminate).
  destruct (completed_without_assistant no_answer tm "asst_v1" "v1")
    as [Hreturns Hreturned].
  destruct (Hreturns fresh _ _ 2 _ _ _ Hs Hc Hm Hnone) as [Hrun _].
  assert (H3 : RunAssistant no_answer 3 tm "asst_v1" "v1" fresh
               = Some (Err "no assistant message found", s4.2))
    by (apply Hrun; lia).
  assert (Hin : In (Http (GetMessages "thread_1")
                      (Reply {| StatusCode := 200; Body := "messages"; ReadErr := None |}))
                  (events_since fresh s4.2)).
  { vm_compute. do 7 right. left. reflexivity. }
  split; [by rewrite H3|].
  split; [by rewrite (Hrun 8 ltac:(lia))|].
  rewrite H3. split; [|exact Hin].
  exact (proj2 (Hreturned 3 fresh _ _ "thread_1" _ question_only H3 Hin
                  eq_refl eq_refl eq_refl Hnone)).
Defined.



Lemma session_on_one_thread_witness :
  let run := ask_all calm 3 "v1" "asst_v1" ["Hi"; "And then?"] fresh in
  let lapsed := expire (thread_key "v1") (final run) in
  let again := GetOrCreateThreadManager calm "v1" "asst_v1" lapsed in
  ends_with run (Ok ["Hello, world."; "Hello, world."])
  /\ (exists t, Forall (on_thread t) (events_since fresh (final run)))
  /\ redis (final run) !! thread_key "v1" = Some (RString "thread_1" (24 * Hour))
  /\ again.1 = Ok {| ThreadID := "thread_1" |}
  /\ count is_create_thread (events_since lapsed again.2) = 1.
Proof.
  intros run lapsed again.
  assert (Hrun : ends_with run (Ok ["Hello, world."; "Hello, world."]))
    by (vm_compute; reflexivity).
  assert (Hk : redis (final run) !! thread_key "v1"
               = Some (RString "thread_1" (24 * Hour)))
    by (vm_compute; reflexivity).
  assert (Hg : again = (Ok {| ThreadID := "thread_1" |}, again.2))
    by (vm_compute; reflexivity).
  destruct (session_on_one_thread calm "v1" "asst_v1") as [Hone Hlapsed].
  split; [exact Hrun|].
  split; [exact (proj1 (Hone 3 ["Hi"; "And then?"] fresh _ _ Hrun))|].
  split; [exact Hk|].
  split; [by rewrite Hg|].
  exact (proj1 (Hlapsed (final run) _ _ _ _ Hk Hg)).
Defined.

(** The empty store is well kinded, and stays so. *)
Lemma store_kinds_kept_witness :
  let run := AskAssistantQuestion calm 3 "v1" "asst_v1" "Hi" fresh in
  ends_with run (Ok "Hello, world.")
  /\ well_kinded (redis fresh)
  /\ well_kinded (redis (final run))
  /\ Forall (fun ev => ~ refused_for_kind ev) (events_since fresh (final run)).
Proof.
  intros run.
  assert (Hrun : ends_with run (Ok "Hello, world.")) by (vm_compute; reflexivity).
  assert (Hfresh : well_kinded (redis fresh)).
  { intros v. simpl. by rewrite !lookup_empty. }
  split; [exact Hrun|]. split; [exact Hfresh|].
  exact (proj2 (store_kinds_kept calm) 3 "v1" "asst_v1" "Hi" fresh _ _ Hfresh Hrun).
Defined.

(** A thread listed oldest first, with a fragment that is no text. *)
Lemma first_assistant_position_witness :
  first_assistant oldest_first = Some "Hello, world.".
Proof.
  apply (proj1 first_assistant_position
           [ {| ID := "msg_1"; Role := "user"; Content := [text "Hi"] |} ]
           {| ID := "msg_2"; Role := "assistant";
              Content := [text "Hello, "; {| Type' := "image_file"; Text := None |};
                          text "world."] |}
           [ {| ID := "msg_3"; Role := "assistant"; Content := [text "Later."] |} ]).
  - repeat constructor. discriminate.
  - reflexivity.
Defined.

(** Fragments that are no text add nothing. *)
Lemma collect_text_fragments_witness :
  collect_text
    [ {| Type' := "image_file"; Text := None |};
      {| Type' := "image_file"; Text := Some {| Value := "caption" |} |};
      {| Type' := "text"; Text := None |} ] "so far"
  = "so far".
Proof.
  apply (proj2 (proj2 (proj2 collect_text_fragments))).
  repeat constructor.
Defined.

(** The provider refuses to create the assistant and the thread. *)
Lemma failed_creation_writes_nothing_witness :
  let out1 := CreateAssistantWithMetadata no_creation request_v1 fresh in
  let out2 := GetOrCreateThreadManager no_creation "v1" "asst_v1" fresh in
  (is_Ok out1.1 = false /\ untouched fresh out1.2
   /\ count is_store (events_since fresh out1.2) = 0)
  /\ (is_Ok out2.1 = false /\ untouched fresh out2.2
      /\ events_since fresh out2.2
         = [RedisGet "thread_id:v1" (Err redis_Nil);
            Http PostThreads (reply 429 refused_body)]).
Proof.
  intros out1 out2. split.
  - apply (proj1 (failed_creation_writes_nothing no_creation) request_v1 fresh
             out1.1 out1.2).
    + vm_compute; reflexivity.
    + reflexivity.
  - apply (proj2 (failed_creation_writes_nothing no_creation) "v1" "asst_v1" fresh
             out2.1 out2.2 (reply 429 refused_body)).
    + vm_compute; reflexivity.
    + vm_compute. right. left. reflexivity.
    + reflexivity.
Defined.

End Properties.
